(** * deal: static contract linter rules, contract aliases and the transformer

    A shallow embedding of [deal/linter/_rules.py] and [deal/_aliases.py].
    Generators are run to exhaustion: a rule returns the list of the
    diagnostics it yields, together with the exception that ended the
    iteration when the rule can raise.  The modules that the rules import
    ([_extractors], [_contract], [_func], [_decorators]) appear as interfaces
    (type classes) whose operations the rules call. *)

From Stdlib Require Import ZArith.
From stdpp Require Import base decidable option list strings gmap.

Local Open Scope Z_scope.

(** ** Python values *)

(** The values that contracts, tokens and validators exchange.  [VObject]
    stands for any other object, described by what the rules observe of it:
    its [str()] and its truth value. *)
Inductive PyVal :=
  | VNone
  | VBool (b : bool)
  | VInt (z : Z)
  | VStr (s : string)
  | VObject (repr : string) (truth : bool).

(** [isinstance(v, str)] *)
Definition is_str (v : PyVal) : bool :=
  match v with VStr _ => true | _ => false end.

(** [bool(v)] *)
Definition truthy (v : PyVal) : bool :=
  match v with
  | VNone => false
  | VBool b => b
  | VInt z => negb (Z.eqb z 0)
  | VStr s => negb (String.eqb s "")
  | VObject _ t => t
  end.

(** Decimal digits of a positive number, most significant first. *)
Fixpoint digits_fuel (fuel : nat) (n : N) (acc : string) : string :=
  match fuel with
  | O => acc
  | S fuel' =>
      let d := Ascii.ascii_of_N (48 + N.modulo n 10)%N in
      let acc' := String d acc in
      if N.eqb (N.div n 10) 0%N then acc' else digits_fuel fuel' (N.div n 10) acc'
  end.

Definition str_of_int (z : Z) : string :=
  match z with
  | Z0 => "0"
  | Zpos p => digits_fuel (Pos.to_nat p) (Npos p) ""
  | Zneg p => "-" +:+ digits_fuel (Pos.to_nat p) (Npos p) ""
  end.

(** [str(v)] *)
Definition py_str (v : PyVal) : string :=
  match v with
  | VNone => "None"
  | VBool true => "True"
  | VBool false => "False"
  | VInt z => str_of_int z
  | VStr s => s
  | VObject r _ => r
  end.

(** [a or b] on an optional string: [b] when [a] is [None] or empty. *)
Definition str_or (a : option string) (b : string) : string :=
  match a with
  | Some s => if String.eqb s "" then b else s
  | None => b
  end.

(** ** Exceptions and generators *)

(** Exceptions that can leave a rule. *)
Inductive Exn :=
  | AssertionError
  | IndexError
  | OtherError (name : string).

(** A generator run to exhaustion. *)
Record Gen (A : Type) := mkGen {
  yielded : list A;
  raised : option Exn;
}.
Arguments mkGen {A} _ _.
Arguments yielded {A} _.
Arguments raised {A} _.

(** falling off the end of the generator body, or [return] *)
Definition gen_return {A} : Gen A := mkGen [] None.

(** [raise e] *)
Definition gen_raise {A} (e : Exn) : Gen A := mkGen [] (Some e).

(** [yield x], then the rest of the body *)
Definition gen_yield {A} (x : A) (k : Gen A) : Gen A :=
  mkGen (x :: yielded k) (raised k).

(** one statement after another: [k] runs only when [g] did not raise *)
Definition gen_then {A} (g k : Gen A) : Gen A :=
  match raised g with
  | Some _ => g
  | None => mkGen (yielded g ++ yielded k) (raised k)
  end.

Infix ";;;" := gen_then (at level 62, right associativity).

(** ** Interfaces of the modules the rules import *)

(** Type objects: exception classes as [get_exceptions] resolves them. *)
Class PyTypes := {
  PyClass : Type;
  PyClass_eq_dec :: EqDecision PyClass;
  (** [cls.__name__] *)
  cls_name : PyClass → string;
  (** [issubclass(c, d)] *)
  issubclass : PyClass → PyClass → bool;
}.

(** Syntax trees ([ast] / [astroid]) and the linter's opaque objects. *)
Class Ast := {
  (** a statement sequence, [func.body] *)
  Body : Type;
  (** an expression node *)
  Expr : Type;
  (** [contract.context] *)
  ResolutionContext : Type;
  (** [StubsManager] *)
  StubsManager : Type;
}.

(** An argument node of a contract: a lambda or anything else. *)
Inductive Node `{Ast} :=
  | Lambda (body : Expr) (lineno col_offset : Z)
  | OtherNode (e : Expr).
Arguments Lambda {_} _ _ _.
Arguments OtherNode {_} _.

(** [Token]: one extracted fact. *)
Record Token (V : Type) := mkToken {
  value : V;
  line : Z;
  col : Z;
  marker : option string;
}.
Arguments mkToken {V} _ _ _ _.
Arguments value {V} _.
Arguments line {V} _.
Arguments col {V} _.
Arguments marker {V} _.

(** The value of a raised-error token and the entries of
    [contract.exceptions]: a resolved class, or the name kept as a string. *)
Inductive ExcValue `{PyTypes} :=
  | ExcType (c : PyClass)
  | ExcName (s : string).
Arguments ExcType {_} _.
Arguments ExcName {_} _.

(** [Example.result]: a value or the [UNKNOWN] sentinel. *)
Inductive ExResult :=
  | UNKNOWN
  | Known (v : PyVal).

Record Example := mkExample {
  ex_args : list PyVal;
  ex_kwargs : gmap string PyVal;
  ex_result : ExResult;
}.

(** What a call of [contract.run] with positional and keyword arguments
    does.  [RaisedNameError] is any exception that [except NameError]
    catches. *)
Inductive RunResult :=
  | Returned (result : PyVal)
  | RaisedNameError
  | RaisedOther (name : string).

Inductive Category :=
  | PRE | POST | ENSURE | RAISES | HAS | REASON | EXAMPLE | SAFE | PURE.

#[global] Instance Category_eq_dec : EqDecision Category.
Proof. solve_decision. Defined.

(** [Contract]: its fields and the results of its [exceptions] property and
    [run] method. *)
Record Contract `{PyTypes, Ast} := mkContract {
  category : Category;
  args : list Node;
  context : ResolutionContext;
  exceptions : list ExcValue;
  run : list PyVal → gmap string PyVal → RunResult;
}.
Arguments mkContract {_ _} _ _ _ _ _.

Record Func `{PyTypes, Ast} := mkFunc {
  name : string;
  body : Body;
  contracts : list Contract;
  func_line : Z;
  func_col : Z;
}.
Arguments mkFunc {_ _} _ _ _ _ _.

(** [deal.linter._extractors] *)
Class Extractors `{PyTypes, Ast} := {
  get_pre : Body → ResolutionContext → list (Token string);
  get_exceptions : Body → option StubsManager → list (Token ExcValue);
  get_asserts : Body → list (Token PyVal);
  get_markers : Body → list (Token PyVal);
  has_returns : Body → bool;
  get_example : Expr → string → option Example;
  (** on the literal argument of a HAS contract *)
  get_value : Node → string;
}.

(** [deal._decorators.Has]: an instance holds the frozen set of its markers;
    the class defines boolean properties named [has_<marker>]. *)
Record Has := mkHas { markers : gset string }.

(** The constructor [Has], called with the markers as arguments. *)
Definition Has_new (ms : list string) : Has := mkHas (list_to_set ms).

Class HasProperties := {
  (** [has.has_io] *)
  has_io : Has → bool;
  (** [getattr(has, attr, None)] for an attribute name [has_<marker>]:
      [None] when the class has no such property *)
  getattr_has : Has → string → option bool;
  getattr_has_io : ∀ h, getattr_has h "has_io" = Some (has_io h);
}.

(** ** Errors and rules *)

Record Error := mkError {
  code : Z;
  text : string;
  err_value : option string;
  row : Z;
  err_col : Z;
}.

#[global] Instance Error_eq_dec : EqDecision Error.
Proof. solve_decision. Defined.

(** The class attributes of a rule. *)
Record Rule := mkRule {
  rule_code : Z;
  rule_message : string;
}.

(** What a call that may raise gives back. *)
Inductive Outcome (A : Type) :=
  | Ok (a : A)
  | Raise (e : Exn).
Arguments Ok {A} _.
Arguments Raise {A} _.

(** [Rule._validate] *)
Definition _validate `{PyTypes, Ast} (self : Rule) (contract : Contract)
    (args : list PyVal) (kwargs : gmap string PyVal)
    (row col : Z) (value : string) : Outcome (option Error) :=
  match run contract args kwargs with
  | RaisedNameError => Ok None
  | RaisedOther e => Raise (OtherError e)
  | Returned result =>
      match result with
      | VStr s => Ok (Some (mkError (rule_code self) s (Some value) row col))
      | _ =>
          if negb (truthy result)
          then Ok (Some (mkError (rule_code self) (rule_message self) (Some value) row col))
          else Ok None
      end
  end.

(** [error = self._validate(...); if error is not None: yield error] *)
Definition yield_validated (o : Outcome (option Error)) : Gen Error :=
  match o with
  | Raise e => gen_raise e
  | Ok None => gen_return
  | Ok (Some error) => gen_yield error gen_return
  end.

(** [for x in xs: body] in a generator that cannot raise *)
Definition for_yield {A B} (xs : list A) (body : A → list B) : list B :=
  flat_map body xs.

(** [for x in xs: body] in a generator; an exception ends the loop *)
Fixpoint gen_for {A B} (xs : list A) (body : A → Gen B) : Gen B :=
  match xs with
  | [] => gen_return
  | x :: rest => body x ;;; gen_for rest body
  end.

(** ** The rules *)

Module CheckPre.
Section Rule.
Context `{Extractors}.

Definition self : Rule := mkRule 11 "pre contract error".

Definition __call__ (func : Func) (stubs : option StubsManager) : list Error :=
  match contracts func with
  | [] => [] (* return *)
  | first :: _ =>
      let context := context first in
      for_yield (get_pre (body func) context) (fun token =>
        [mkError (rule_code self)
                 (str_or (marker token) (rule_message self))
                 (Some (value token))
                 (line token) (col token)])
  end.
End Rule.
End CheckPre.

Module CheckExamples.
Section Rule.
Context `{Extractors}.

Definition self : Rule := mkRule 13 "example violates contract".

(** the body of [for other in func.contracts] *)
Definition check_other (example : Example) (lineno col_offset : Z)
    (other : Contract) : Gen Error :=
  (if decide (category other = PRE)
   then yield_validated
          (_validate self other (ex_args example) (ex_kwargs example)
                     lineno col_offset "deal.pre")
   else gen_return) ;;;
  let ensure_part :=
    if decide (category other = ENSURE)
    then match ex_result example with
         | UNKNOWN => gen_return (* continue *)
         | Known result =>
             yield_validated
               (_validate self other (ex_args example)
                          (<["result" := result]> (ex_kwargs example))
                          lineno col_offset "deal.ensure")
         end
    else gen_return in
  if decide (category other = POST)
  then match ex_result example with
       | UNKNOWN => gen_return (* continue *)
       | Known result =>
           yield_validated
             (_validate self other [result] ∅ lineno col_offset "deal.post")
           ;;; ensure_part
       end
  else ensure_part.

Definition _check (func : Func) (contract : Contract) : Gen Error :=
  match args contract with
  | [] => gen_raise IndexError
  | token :: _ =>
      match token with
      | OtherNode _ => gen_return
      | Lambda token_body lineno col_offset =>
          match get_example token_body (name func) with
          | None => gen_return
          | Some example =>
              gen_for (contracts func) (check_other example lineno col_offset)
          end
      end
  end.

Definition __call__ (func : Func) (stubs : option StubsManager) : Gen Error :=
  gen_for (contracts func) (fun contract =>
    if decide (category contract ≠ EXAMPLE) then gen_return (* continue *)
    else _check func contract).
End Rule.
End CheckExamples.

#[global] Instance ExcValue_eq_dec `{PyTypes} : EqDecision ExcValue.
Proof. solve_decision. Defined.

Module CheckRaises.
Section Rule.
Context `{Extractors}.

Definition self : Rule := mkRule 21 "raises contract error".

Definition cats : list Category := [RAISES; SAFE; PURE].

(** the entries of [allowed] that are not strings *)
Definition not_str (exc : ExcValue) : option PyClass :=
  match exc with
  | ExcType c => Some c
  | ExcName _ => None
  end.

Definition _check (func : Func) (contract : Contract)
    (stubs : option StubsManager) : list Error :=
  let allowed := exceptions contract in
  let allowed_types := omap not_str allowed in
  for_yield (get_exceptions (body func) stubs) (fun token =>
    if bool_decide (value token ∈ allowed) then [] (* continue *)
    else
      match value token with
      | ExcType exc =>
          if existsb (issubclass exc) allowed_types then [] (* continue *)
          else [mkError (rule_code self) (rule_message self)
                        (Some (cls_name exc)) (line token) (col token)]
      | ExcName exc =>
          [mkError (rule_code self) (rule_message self)
                   (Some exc) (line token) (col token)]
      end).

Definition __call__ (func : Func) (stubs : option StubsManager) : list Error :=
  for_yield (contracts func) (fun contract =>
    if bool_decide (category contract ∉ cats) then [] (* continue *)
    else _check func contract stubs).
End Rule.
End CheckRaises.

Module CheckAsserts.
Section Rule.
Context `{Extractors}.

Definition self : Rule := mkRule 31 "assert error".

Definition __call__ (func : Func) (stubs : option StubsManager) : list Error :=
  if String.prefix "test_" (name func) then [] (* return *)
  else
    for_yield (get_asserts (body func)) (fun token =>
      [mkError (rule_code self) (rule_message self)
               (Some (py_str (value token))) (line token) (col token)]).
End Rule.
End CheckAsserts.

Module CheckMarkers.
Section Rule.
Context `{Extractors} `{HasProperties}.

Definition self : Rule := mkRule 40 "missed marker".

Definition codes : gmap string Z :=
  list_to_map
    [("global", 41); ("import", 42); ("io", 43); ("read", 44);
     ("write", 45); ("stdout", 46); ("stderr", 47); ("network", 48)].

(** [codes.get(key, 40)] *)
Definition codes_get (key : string) : Z := default 40 (codes !! key).

(** the body of [for token in get_markers(body=func.body)] *)
Definition check_token (has : Has) (token : Token PyVal) : Gen Error :=
  match marker token with
  | None => gen_raise AssertionError
  | Some m =>
      if String.eqb m "" then gen_raise AssertionError
      else
        let has_marker :=
          match getattr_has has ("has_" +:+ m) with
          | Some b => b
          | None => bool_decide (m ∈ markers has)
          end in
        if has_marker then gen_return (* continue *)
        else gen_yield
               (mkError (codes_get m) (rule_message self)
                        (Some m) (line token) (col token))
               gen_return
  end.

Definition _check (func : Func) (has : Has) : Gen Error :=
  (if negb (has_io has) && negb (has_returns (body func))
   then gen_yield
          (mkError (codes_get "io") (rule_message self)
                   (Some "io") (func_line func) (func_col func))
          gen_return
   else gen_return) ;;;
  gen_for (get_markers (body func)) (check_token has).

(** the marker list a contract declares; [None] for the other categories *)
Definition declared_markers (contract : Contract) : option (list string) :=
  if decide (category contract = HAS)
  then Some (map get_value (args contract))
  else if decide (category contract = PURE) then Some []
  else None.

(** [for contract in func.contracts], left by [return] after the first
    check *)
Fixpoint call_loop (func : Func) (cs : list Contract) : Gen Error :=
  match cs with
  | [] => gen_return
  | contract :: rest =>
      match declared_markers contract with
      | None => call_loop func rest (* continue *)
      | Some ms => _check func (Has_new ms) (* yield from, then return *)
      end
  end.

Definition __call__ (func : Func) (stubs : option StubsManager) : Gen Error :=
  call_loop func (contracts func).
End Rule.
End CheckMarkers.

(** ** Contract aliases ([deal/_aliases.py]) *)

Module Aliases.

(** What the aliases pass around without looking inside. *)
Class DecoratorTypes := {
  (** a function that contracts get attached to *)
  Callable : Type;
  Validator : Type;
  ExceptionType : Type;
  (** an exception accepted by [raises] or [reason] *)
  PyException : Type;
}.

(** The contract objects of [_decorators], as built by their
    constructors. *)
Inductive Decorator `{DecoratorTypes} :=
  | Pre (validator : Validator)
        (message : option string) (exception : option ExceptionType)
  | Post (validator : Validator)
         (message : option string) (exception : option ExceptionType)
  | Ensure (validator : Validator)
           (message : option string) (exception : option ExceptionType)
  | Raises (exceptions : list PyException)
           (message : option string) (exception : option ExceptionType)
  | Has (markers : list string)
        (message : option string) (exception : option ExceptionType)
  | Reason (event : PyException) (validator : Validator)
           (message : option string) (exception : option ExceptionType).
Arguments Pre {_} _ _ _.
Arguments Post {_} _ _ _.
Arguments Ensure {_} _ _ _.
Arguments Raises {_} _ _ _.
Arguments Has {_} _ _ _.
Arguments Reason {_} _ _ _ _.

(** Calling a contract object on a function wraps the function. *)
Class DecoratorCall `{DecoratorTypes} := {
  decorate : Decorator → Callable → Callable;
}.

(** The keyword arguments [message] and [exception]. *)
Record Kwargs `{DecoratorTypes} := mkKwargs {
  kw_message : option string;
  kw_exception : option ExceptionType;
}.
Arguments mkKwargs {_} _ _.

Section Defs.
Context `{DecoratorCall}.

Definition no_kwargs : Kwargs := mkKwargs None None.

Definition pre (validator : Validator) (kw : Kwargs) : Decorator :=
  Pre validator (kw_message kw) (kw_exception kw).

Definition post (validator : Validator) (kw : Kwargs) : Decorator :=
  Post validator (kw_message kw) (kw_exception kw).

Definition ensure (validator : Validator) (kw : Kwargs) : Decorator :=
  Ensure validator (kw_message kw) (kw_exception kw).

Definition raises (exceptions : list PyException) (kw : Kwargs) : Decorator :=
  Raises exceptions (kw_message kw) (kw_exception kw).

Definition has (markers : list string) (kw : Kwargs) : Decorator :=
  Has markers (kw_message kw) (kw_exception kw).

Definition reason (event : PyException) (validator : Validator)
    (kw : Kwargs) : Decorator :=
  Reason event validator (kw_message kw) (kw_exception kw).

(** The two overloads of [safe]: without a function it gives a contract
    object, with a function it gives the wrapped function. *)
Definition safe_result (_func : option Callable) : Type :=
  match _func with
  | None => Decorator
  | Some _ => Callable
  end.

Definition safe (_func : option Callable) (kwargs : Kwargs) : safe_result _func :=
  match _func with
  | None => raises [] kwargs
  | Some f => decorate (raises [] no_kwargs) f
  end.

(** [chain]: the contracts are applied in the order given. *)
Definition chain (contracts : list (Callable → Callable)) : Callable → Callable :=
  fun func => fold_left (fun func contract => contract func) contracts func.

Definition pure (_func : Callable) : Callable :=
  chain [decorate (has [] no_kwargs); fun f => safe (Some f) no_kwargs] _func.
End Defs.
End Aliases.

(** ** The transformer *)

Module Transformer.














End Transformer.

(** ** A concrete setting for examples

    The builtin exception classes that the tests of the extractors use, and
    syntax trees given by the facts that the extractors read off them. *)

Module Builtins.

Inductive Builtin :=
  | BaseException
  | Exception
  | LookupError
  | KeyError
  | ValueError.

#[global] Instance Builtin_eq_dec : EqDecision Builtin.
Proof. solve_decision. Defined.

Definition builtin_name (c : Builtin) : string :=
  match c with
  | BaseException => "BaseException"
  | Exception => "Exception"
  | LookupError => "LookupError"
  | KeyError => "KeyError"
  | ValueError => "ValueError"
  end.

(** [c.__mro__], without [object] *)
Definition mro (c : Builtin) : list Builtin :=
  match c with
  | BaseException => [BaseException]
  | Exception => [Exception; BaseException]
  | LookupError => [LookupError; Exception; BaseException]
  | KeyError => [KeyError; LookupError; Exception; BaseException]
  | ValueError => [ValueError; Exception; BaseException]
  end.

#[global] Instance builtin_types : PyTypes := {|
  PyClass := Builtin;
  cls_name := builtin_name;
  issubclass c d := bool_decide (d ∈ mro c);
|}.

Record BodyFacts := mkBody {
  pre_tokens : nat → list (Token string);
  exception_tokens : list (Token ExcValue);
  assert_tokens : list (Token PyVal);
  marker_tokens : list (Token PyVal);
  returns_on_all_paths : bool;
}.

Record ExprFacts := mkExpr {
  literal : string;
  example_for : string → option Example;
}.

#[global] Instance facts_ast : Ast := {|
  Body := BodyFacts;
  Expr := ExprFacts;
  ResolutionContext := nat;
  StubsManager := unit;
|}.

#[global] Instance facts_extractors : Extractors := {|
  get_pre b ctx := pre_tokens b ctx;
  get_exceptions b _ := exception_tokens b;
  get_asserts := assert_tokens;
  get_markers := marker_tokens;
  has_returns := returns_on_all_paths;
  get_example e func_name := example_for e func_name;
  get_value n :=
    match n with
    | Lambda e _ _ => literal e
    | OtherNode e => literal e
    end;
|}.

(** Modelled from the spec: a [Has] whose [has_io] says whether "io" is
    among the declared markers, and which defines no other [has_<marker>]
    property, so that every other marker is looked up in the declared
    set. *)
#[global] Instance declared_set_has : HasProperties := {|
  has_io h := bool_decide ("io" ∈ markers h);
  getattr_has h attr :=
    if String.eqb attr "has_io" then Some (bool_decide ("io" ∈ markers h))
    else None;
  getattr_has_io h := eq_refl;
|}.

(** a body without facts *)
Definition empty_body : BodyFacts := mkBody (fun _ => []) [] [] [] true.

(** a contract whose validator always gives [result] *)
Definition contract_of (cat : Category) (excs : list ExcValue)
    (result : RunResult) : Contract :=
  mkContract cat [] 0%nat excs (fun _ _ => result).

End Builtins.

(** ** The specification's wording, as definitions *)

Module Spec.

(** [s] starts with [p] *)
Definition starts_with (p s : string) : Prop := ∃ rest, s = p +:+ rest.

(** the naming convention that exempts tests from the assertion rule *)
Definition exempted (func_name : string) : Prop := starts_with "test_" func_name.

(** the sub-code of a marker *)
Definition marker_code (m : string) : Z :=
  if String.eqb m "global" then 41
  else if String.eqb m "import" then 42
  else if String.eqb m "io" then 43
  else if String.eqb m "read" then 44
  else if String.eqb m "write" then 45
  else if String.eqb m "stdout" then 46
  else if String.eqb m "stderr" then 47
  else if String.eqb m "network" then 48
  else 40.

Section WithExtractors.
Context `{Extractors}.

(** the diagnostic of the precondition call-site rule for a token *)
Definition pre_diagnostic (token : Token string) : Error :=
  mkError 11 (str_or (marker token) "pre contract error")
          (Some (value token)) (line token) (col token).

(** the diagnostic of the assertion rule for a token *)
Definition assert_diagnostic (token : Token PyVal) : Error :=
  mkError 31 "assert error" (Some (py_str (value token)))
          (line token) (col token).

(** the diagnostic of the marker rule for a marker token *)
Definition marker_diagnostic (m : string) (token : Token PyVal) : Error :=
  mkError (marker_code m) "missed marker" (Some m) (line token) (col token).

(** the diagnostic for a function that declares no "io" and does not
    return on every path *)
Definition no_return_diagnostic (func : Func) : Error :=
  mkError 43 "missed marker" (Some "io") (func_line func) (func_col func).

(** a diagnostic with code 43 and value "io" at the function's position *)
Definition is_io_flag (func : Func) (e : Error) : bool :=
  bool_decide (code e = 43 ∧ err_value e = Some "io" ∧
               row e = func_line func ∧ err_col e = func_col func).

(** the contract is a HAS contract declaring [ms] or a PURE contract, for
    which [ms] is empty *)
Definition declares (contract : Contract) (ms : list string) : Prop :=
  (category contract = HAS ∧ ms = map get_value (args contract)) ∨
  (category contract = PURE ∧ ms = []).

(** a marker token that names its marker *)
Definition named (token : Token PyVal) : Prop :=
  ∃ m, marker token = Some m ∧ m ≠ "".

(** a token that lies elsewhere than the function's own position *)
Definition inside (func : Func) (token : Token PyVal) : Prop :=
  (line token, col token) ≠ (func_line func, func_col func).

(** neither a HAS nor a PURE contract *)
Definition no_markers (contract : Contract) : Prop :=
  category contract ≠ HAS ∧ category contract ≠ PURE.

(** the categories whose declared exceptions the exception rule reads *)
Definition declares_exceptions (contract : Contract) : bool :=
  bool_decide (category contract = RAISES ∨ category contract = SAFE ∨
               category contract = PURE).

(** the union of the declared identifiers and types *)
Definition allowed_union (func : Func) : list ExcValue :=
  flat_map exceptions (filter (fun c => declares_exceptions c = true) (contracts func)).

(** a raised value is covered by direct identity, or by a subclass relation
    against an allowed type *)
Definition covered (allowed : list ExcValue) (v : ExcValue) : bool :=
  bool_decide (v ∈ allowed) ||
  match v with
  | ExcType c =>
      existsb (fun a => match a with
                        | ExcType d => issubclass c d
                        | ExcName _ => false
                        end) allowed
  | ExcName _ => false
  end.

(** the name of the offending type *)
Definition offending_name (v : ExcValue) : string :=
  match v with
  | ExcType c => cls_name c
  | ExcName s => s
  end.

Definition raises_diagnostic (token : Token ExcValue) : Error :=
  mkError 21 "raises contract error" (Some (offending_name (value token)))
          (line token) (col token).

(** the tokens that [allowed] does not cover, each with its diagnostic *)
Definition uncovered (allowed : list ExcValue)
    (tokens : list (Token ExcValue)) : list Error :=
  map raises_diagnostic
      (filter (fun token => covered allowed (value token) = false) tokens).

(** the exception rule as the specification words it: one allowed set, the
    union over the contracts *)
Definition check_raises_union (func : Func) (stubs : option StubsManager) : list Error :=
  uncovered (allowed_union func) (get_exceptions (body func) stubs).

(** the exception rule, contract by contract *)
Definition check_raises_each (func : Func) (stubs : option StubsManager) : list Error :=
  flat_map (fun contract =>
              uncovered (exceptions contract) (get_exceptions (body func) stubs))
           (filter (fun c => declares_exceptions c = true) (contracts func)).






End WithExtractors.
End Spec.

(** ** Concrete functions *)

Module Inputs.
Import Builtins.

Definition passes : list PyVal → gmap string PyVal → RunResult :=
  fun _ _ => Returned (VBool true).

(** the literal argument of a HAS contract *)
Definition marker_arg (m : string) : Node :=
  OtherNode (mkExpr m (fun _ => None)).

Definition raises_contract (excs : list ExcValue) : Contract :=
  mkContract RAISES [] 0%nat excs passes.

Definition has_contract (ms : list string) : Contract :=
  mkContract HAS (map marker_arg ms) 0%nat [] passes.

Definition pure_contract : Contract :=
  mkContract PURE [] 0%nat [] passes.

Definition pre_contract (ctx : nat) : Contract :=
  mkContract PRE [] ctx [] passes.

(** [raise ValueError] on line 4 *)
Definition raise_ValueError : Token ExcValue :=
  mkToken (ExcType ValueError) 4 4 None.

Definition body_raising : BodyFacts :=
  mkBody (fun _ => []) [raise_ValueError] [] [] false.

(** a function that raises [ValueError] under the two contracts
    [raises(ValueError)] and [raises(KeyError)] *)
Definition two_raises : Func :=
  mkFunc "f" body_raising
         [raises_contract [ExcType ValueError];
          raises_contract [ExcType KeyError]] 3 0.

(** [print(1)] on line 3 *)
Definition print_token : Token PyVal :=
  mkToken (VStr "print") 3 4 (Some "stdout").

Definition body_printing : BodyFacts :=
  mkBody (fun _ => []) [] [] [print_token] false.

(** a function that prints and does not return, declared pure *)
Definition pure_printing : Func :=
  mkFunc "f" body_printing [pure_contract] 1 0.

(** a pure function whose body only passes, and one that returns *)
Definition pure_passing : Func :=
  mkFunc "f" (mkBody (fun _ => []) [] [] [] false) [pure_contract] 1 0.

Definition pure_returning : Func :=
  mkFunc "f" (mkBody (fun _ => []) [] [] [] true) [pure_contract] 1 0.

(** the same body under [has("stdout")], then [has("io")] *)
Definition stdout_then_io : Func :=
  mkFunc "f" body_printing [has_contract ["stdout"]; has_contract ["io"]] 1 0.

(** a call whose precondition fails, as seen from two contexts *)
Definition call_token (ctx : nat) : Token string :=
  mkToken "0" 5 (Z.of_nat ctx) None.

Definition body_calling : BodyFacts :=
  mkBody (fun ctx => [call_token ctx]) [] [] [] true.

Definition calling : Func :=
  mkFunc "f" body_calling [pre_contract 7; pre_contract 9] 1 0.

Definition calling_uncontracted : Func :=
  mkFunc "f" body_calling [] 1 0.

(** [assert False] on line 2 *)
Definition assert_token : Token PyVal := mkToken (VBool false) 2 4 None.

Definition body_asserting : BodyFacts :=
  mkBody (fun _ => []) [] [assert_token] [] true.

Definition asserting (fname : string) : Func :=
  mkFunc fname body_asserting [] 1 0.

(** [double(2) == 4], the example of a function [double] *)
Definition example_2_4 : Example := mkExample [VInt 2] ∅ (Known (VInt 4)).

Definition example_arg : Node :=
  Lambda (mkExpr "" (fun fname =>
                       if String.eqb fname "double" then Some example_2_4
                       else None)) 2 1.

(** a precondition that rejects the argument 2 with a message *)
Definition odd_pre : Contract :=
  mkContract PRE [] 0%nat []
    (fun a _ => match a with
                | [VInt 2] => Returned (VStr "x must be odd")
                | _ => Returned (VBool true)
                end).

(** a postcondition that accepts the result 4 *)
Definition four_post : Contract :=
  mkContract POST [] 0%nat []
    (fun a _ => match a with
                | [VInt 4] => Returned (VBool true)
                | _ => Returned (VBool false)
                end).

(** a postcondition on arguments and result that rejects the result 4 and
    cannot be evaluated without a result *)
Definition not_four_ensure : Contract :=
  mkContract ENSURE [] 0%nat []
    (fun _ k => match k !! "result" with
                | Some (VInt 4) => Returned (VBool false)
                | Some _ => Returned (VBool true)
                | None => RaisedNameError
                end).

Definition example_contract : Contract :=
  mkContract EXAMPLE [example_arg] 0%nat [] passes.

Definition exampled : Func :=
  mkFunc "double" empty_body
         [odd_pre; four_post; not_four_ensure; example_contract] 1 0.




End Inputs.

(** ** The other rules and the registry *)

(** The extractors of the import rule and of the postcondition rule, and
    [ast.Module] with its [body]. *)
Class ModuleExtractors `{Extractors} := {
  (** [ast.Module] *)
  Tree : Type;
  (** [tree.body] *)
  tree_body : Tree → Body;
  get_imports : Body → list (Token string);
  get_returns : Body → list (Token PyVal);
}.

Module CheckImports.
Section Rule.
Context `{ModuleExtractors}.

Definition self : Rule :=
  mkRule 1 "do not use `from deal import ...`, use `import deal` instead".

Definition __call__ (tree : Tree) : list Error :=
  for_yield (get_imports (tree_body tree)) (fun token =>
    if negb (String.eqb (value token) "deal") then [] (* continue *)
    else [mkError (rule_code self) (rule_message self) None
                  (line token) (col token)]).
End Rule.
End CheckImports.

Module CheckReturns.
Section Rule.
Context `{ModuleExtractors}.

Definition self : Rule := mkRule 12 "post contract error".

Definition _check (func : Func) (contract : Contract) : Gen Error :=
  gen_for (get_returns (body func)) (fun token =>
    yield_validated
      (_validate self contract [value token] ∅
                 (line token) (col token) (py_str (value token)))).

Definition __call__ (func : Func) (stubs : option StubsManager) : Gen Error :=
  gen_for (contracts func) (fun contract =>
    if decide (category contract ≠ POST) then gen_return (* continue *)
    else _check func contract).
End Rule.
End CheckReturns.

(** [register]: the instance of the rule goes to the end of [rules], and the
    class is given back.  An instance has no state of its own ([__slots__] is
    empty): it is its class attributes. *)
Definition register (rule : Rule) (rules : list Rule) : Rule * list Rule :=
  (rule, rules ++ [rule]).

(** [rules] after the module is loaded: the decorated classes, registered in
    the order of their definitions. *)
Definition rules : list Rule :=
  let rules := [] in
  let '(_, rules) := register CheckImports.self rules in
  let '(_, rules) := register CheckPre.self rules in
  let '(_, rules) := register CheckReturns.self rules in
  let '(_, rules) := register CheckExamples.self rules in
  let '(_, rules) := register CheckRaises.self rules in
  let '(_, rules) := register CheckAsserts.self rules in
  let '(_, rules) := register CheckMarkers.self rules in
  rules.

(** ** Wording of the further properties *)

Module Props.
Section WithExtractors.
Context `{ModuleExtractors}.

(** the diagnostic of the import rule for a token *)
Definition import_diagnostic (token : Token string) : Error :=
  mkError 1 "do not use `from deal import ...`, use `import deal` instead"
          None (line token) (col token).

(** an import token of the module [deal] *)
Definition imports_deal (token : Token string) : Prop := value token = "deal".

(** the diagnostic of a returned value that violates a POST contract: none
    when the validator passes or cannot be evaluated *)
Definition return_violation (contract : Contract) (token : Token PyVal)
    : option Error :=
  match run contract [value token] ∅ with
  | Returned (VStr s) =>
      Some (mkError 12 s (Some (py_str (value token))) (line token) (col token))
  | Returned r =>
      if truthy r then None
      else Some (mkError 12 "post contract error"
                         (Some (py_str (value token))) (line token) (col token))
  | _ => None
  end.

(** no POST validator of the function raises anything but a binding failure
    on a returned value *)
Definition post_validators_bind_or_return (func : Func) : Prop :=
  ∀ contract token e,
    contract ∈ contracts func → category contract = POST →
    token ∈ get_returns (body func) →
    run contract [value token] ∅ ≠ RaisedOther e.

End WithExtractors.

Section WithHas.
Context `{Extractors} `{HasProperties}.

(** what the marker rule computes as [has_marker] for the marker [m] *)
Definition allowed_marker (has : Has) (m : string) : bool :=
  match getattr_has has ("has_" +:+ m) with
  | Some b => b
  | None => bool_decide (m ∈ markers has)
  end.

End WithHas.

(** the labels of the example rule *)
Definition example_labels : list (option string) :=
  [Some "deal.pre"; Some "deal.post"; Some "deal.ensure"].

End Props.

(** ** A concrete setting with imports and returns *)

Module FullFacts.

Record FullBody := mkFullBody {
  facts : Builtins.BodyFacts;
  import_tokens : list (Token string);
  return_tokens : list (Token PyVal);
}.

#[export] Instance full_ast : Ast := {|
  Body := FullBody;
  Expr := Builtins.ExprFacts;
  ResolutionContext := nat;
  StubsManager := unit;
|}.

#[export] Instance full_extractors : Extractors := {|
  get_pre b ctx := Builtins.pre_tokens (facts b) ctx;
  get_exceptions b _ := Builtins.exception_tokens (facts b);
  get_asserts b := Builtins.assert_tokens (facts b);
  get_markers b := Builtins.marker_tokens (facts b);
  has_returns b := Builtins.returns_on_all_paths (facts b);
  get_example e func_name := Builtins.example_for e func_name;
  get_value n :=
    match n with
    | Lambda e _ _ => Builtins.literal e
    | OtherNode e => Builtins.literal e
    end;
|}.

#[export] Instance full_module_extractors : ModuleExtractors := {|
  Tree := FullBody;
  tree_body t := t;
  get_imports := import_tokens;
  get_returns := return_tokens;
|}.

(** [from deal import pre] on line 1, [import os] on line 2 *)
Definition module_importing : Tree :=
  mkFullBody Builtins.empty_body
             [mkToken "deal" 1 0 None; mkToken "os" 2 0 None] [].

(** [import os] on line 1 *)
Definition module_plain : Tree :=
  mkFullBody Builtins.empty_body [mkToken "os" 1 0 None] [].

(** [return -1] on line 3 and [return 2] on line 5 *)
Definition body_returning : FullBody :=
  mkFullBody Builtins.empty_body []
             [mkToken (VInt (-1)) 3 4 None; mkToken (VInt 2) 5 4 None].

(** a postcondition that wants a positive result *)
Definition positive_post : Contract :=
  mkContract POST [] 0%nat []
    (fun a _ => match a with
                | [VInt z] => Returned (VBool (0 <? z))
                | _ => RaisedNameError
                end).

(** a postcondition whose validator fails with a [TypeError] *)
Definition broken_post : Contract :=
  mkContract POST [] 0%nat [] (fun _ _ => RaisedOther "TypeError").

Definition raises_nothing : Contract :=
  mkContract RAISES [] 0%nat [] (fun _ _ => Returned (VBool true)).

Definition returning (cs : list Contract) : Func :=
  mkFunc "f" body_returning cs 1 0.

(** a function whose body gives no return token *)
Definition not_returning (cs : list Contract) : Func :=
  mkFunc "f" module_importing cs 1 0.

End FullFacts.

(** ** More concrete functions *)

Module MoreInputs.
Import Builtins.

(** a pure function whose marker token does not name its marker *)
Definition unnamed_printing : Func :=
  mkFunc "f" (mkBody (fun _ => []) [] [] [mkToken (VStr "print") 3 4 None] true)
         [Inputs.pure_contract] 1 0.

(** [raise KeyError] on line 2, under [raises(LookupError)] *)
Definition raise_KeyError : Token ExcValue :=
  mkToken (ExcType KeyError) 2 4 None.

Definition lookup_declared : Func :=
  mkFunc "f" (mkBody (fun _ => []) [raise_KeyError] [] [] false)
         [Inputs.raises_contract [ExcType LookupError]] 1 0.

(** the function [Inputs.two_raises] with both classes declared by both
    contracts *)
Definition two_raises_wider : Func :=
  mkFunc "f" Inputs.body_raising
         [Inputs.raises_contract [ExcType ValueError; ExcType KeyError];
          Inputs.raises_contract [ExcType KeyError; ExcType ValueError]] 3 0.

(** [raise ValueError] under a contract that declares the name
    "ValueError" *)
Definition name_declared : Contract :=
  Inputs.raises_contract [ExcName "ValueError"].

Definition value_error_by_name : Func :=
  mkFunc "f" Inputs.body_raising [name_declared] 3 0.

(** [raise UnknownError], kept as a name, under [raises(Exception)] *)
Definition raise_unknown : Token ExcValue :=
  mkToken (ExcName "UnknownError") 2 4 None.

Definition exception_declared : Contract :=
  Inputs.raises_contract [ExcType Exception].

Definition unknown_under_exception : Func :=
  mkFunc "f" (mkBody (fun _ => []) [raise_unknown] [] [] false)
         [exception_declared] 1 0.

(** an example whose result is not known, with a keyword argument named
    "result" *)
Definition example_unknown : Example :=
  mkExample [VInt 2] {["result" := VInt 0]} UNKNOWN.

Definition unknown_arg : Node :=
  Lambda (mkExpr "" (fun _ => Some example_unknown)) 2 1.

Definition unknown_example_contract : Contract :=
  mkContract EXAMPLE [unknown_arg] 0%nat [] Inputs.passes.

Definition unknown_exampled : Func :=
  mkFunc "double" empty_body
         [Inputs.odd_pre; Inputs.four_post; Inputs.not_four_ensure;
          unknown_example_contract] 1 0.

(** an example with a known result and a keyword argument named "result" *)
Definition example_keyword : Example :=
  mkExample [VInt 2] {["result" := VInt 0]} (Known (VInt 4)).

(** an EXAMPLE contract without its argument *)
Definition empty_example_contract : Contract :=
  mkContract EXAMPLE [] 0%nat [] Inputs.passes.

Definition example_without_argument : Func :=
  mkFunc "double" empty_body [Inputs.odd_pre; empty_example_contract] 1 0.



(** an EXAMPLE contract whose argument is not a lambda, and one whose
    lambda does not call the function *)
Definition not_lambda_example : Contract :=
  mkContract EXAMPLE [OtherNode (mkExpr "" (fun _ => None))] 0%nat []
             Inputs.passes.

Definition no_call_example : Contract :=
  mkContract EXAMPLE [Lambda (mkExpr "" (fun _ => None)) 2 1] 0%nat []
             Inputs.passes.

Definition without_usable_example : Func :=
  mkFunc "double" empty_body
         [Inputs.odd_pre; not_lambda_example; no_call_example] 1 0.


End MoreInputs.

(** ** The io family of markers *)

Module IoFamily.

(** the kinds of io *)
Definition io_kinds : list string :=
  ["read"; "write"; "stdout"; "stderr"; "network"].

(** the property [has_<kind>] of a kind of io: "io" is declared, or the kind
    itself *)
Definition has_kind (kind : string) (h : Has) : bool :=
  bool_decide ("io" ∈ markers h) || bool_decide (kind ∈ markers h).

(** the property [has_io]: some kind of io is allowed *)
Definition family_has_io (h : Has) : bool :=
  existsb (fun kind => has_kind kind h) io_kinds.

(** The class [Has] of the library reads "io" as a family of markers: the
    property [has_<kind>] of each of read, write, stdout, stderr and network
    holds when "io" or the kind itself is declared, and [has_io] holds when
    one of them does.  No other property is given here: any other marker is
    looked up among the declared ones. *)
Definition io_family_has : HasProperties := {|
  has_io := family_has_io;
  getattr_has h attr :=
    if String.eqb attr "has_io" then Some (family_has_io h)
    else
      match find (fun kind => String.eqb attr ("has_" +:+ kind)) io_kinds with
      | Some kind => Some (has_kind kind h)
      | None => None
      end;
  getattr_has_io h := eq_refl;
|}.

(** the marker rule with this class, on the concrete syntax trees *)
Definition check_markers (func : Func) : Gen Error :=
  @CheckMarkers.__call__ _ _ Builtins.facts_extractors io_family_has func None.

(** [print(1)] in a function that returns, under [has("io")] *)
Definition io_declared_printing : Func :=
  mkFunc "f"
         (Builtins.mkBody (fun _ => []) [] [] [Inputs.print_token] true)
         [Inputs.has_contract ["io"]] 1 0.

(** a function that neither prints nor returns, under [has("stdout")] *)
Definition stdout_declared_silent : Func :=
  mkFunc "f" (Builtins.mkBody (fun _ => []) [] [] [] false)
         [Inputs.has_contract ["stdout"]] 1 0.

(** a function that prints and reads without returning, under
    [has("read")] *)
Definition read_token : Token PyVal :=
  mkToken (VStr "open") 4 4 (Some "read").

Definition read_declared_printing : Func :=
  mkFunc "f"
         (Builtins.mkBody (fun _ => []) [] []
                          [Inputs.print_token; read_token] false)
         [Inputs.has_contract ["read"]] 1 0.

End IoFamily.

(** * Theorems *)

(** ** Generators *)

Lemma gen_then_return_l {A} (k : Gen A) : gen_return ;;; k = k.
Proof. by destruct k. Qed.


(** What a generator yields by the end of [g ;;; k] starts with what [g]
    yields and goes on with part of what [k] yields. *)
Lemma gen_then_yielded_incl {A} (g k : Gen A) (x : A) :
  x ∈ yielded (g ;;; k) → x ∈ yielded g ∨ x ∈ yielded k.
Proof.
  unfold gen_then. destruct (raised g); simpl; [by left|].
  by rewrite elem_of_app.
Qed.

(** A loop whose body never raises yields what its iterations yield. *)
Lemma gen_for_total {A B} (xs : list A) (body : A → Gen B) :
  Forall (fun x => raised (body x) = None) xs →
  gen_for xs body = mkGen (flat_map (fun x => yielded (body x)) xs) None.
Proof.
  induction 1 as [|x xs Hx _ IH]; [done|].
  simpl. rewrite IH. unfold gen_then. by rewrite Hx.
Qed.

(** Everything a loop yields is yielded by one of its iterations. *)
Lemma gen_for_yielded_from {A B} (xs : list A) (body : A → Gen B) (y : B) :
  y ∈ yielded (gen_for xs body) → ∃ x, x ∈ xs ∧ y ∈ yielded (body x).
Proof.
  induction xs as [|x xs IH]; simpl.
  - by intros ?%elem_of_nil.
  - intros [Hy|Hy]%gen_then_yielded_incl.
    + exists x. split; [left|done].
    + destruct (IH Hy) as (x' & ? & ?). exists x'. split; [by right|done].
Qed.

(** ** Strings *)

Lemma append_cons (a : Ascii.ascii) (s t : string) :
  String a s +:+ t = String a (s +:+ t).
Proof. reflexivity. Qed.

Lemma prefix_starts_with (p s : string) :
  String.prefix p s = true ↔ Spec.starts_with p s.
Proof.
  unfold Spec.starts_with.
  revert s. induction p as [|a p IH]; intros [|b s]; simpl.
  - split; [|done]. intros _. by exists "".
  - split; [|done]. intros _. by exists (String b s).
  - split; [done|]. by intros [rest Hrest].
  - destruct (Ascii.ascii_dec a b) as [->|Hne].
    + rewrite IH. split.
      * intros [rest ->]. exists rest. by rewrite append_cons.
      * intros [rest Hrest]. exists rest. rewrite append_cons in Hrest. congruence.
    + split; [done|]. intros [rest Hrest]. rewrite append_cons in Hrest. congruence.
Qed.

(** ** The validator runner *)

(** C2. Whatever the rule: when evaluating the validator fails on a name
    that cannot be resolved, [_validate] gives no diagnostic; when the
    validator returns a string, it gives a diagnostic with that string as its
    message; when the validator returns another value that is falsy, it gives
    a diagnostic with the rule's own message; when the validator returns a
    truthy value that is not a string, it gives no diagnostic. *)
Theorem validate_outcomes `{PyTypes, Ast} (self : Rule) (contract : Contract)
    (args : list PyVal) (kwargs : gmap string PyVal)
    (row col : Z) (value : string) :
  (run contract args kwargs = RaisedNameError →
   _validate self contract args kwargs row col value = Ok None) ∧
  (∀ s, run contract args kwargs = Returned (VStr s) →
   _validate self contract args kwargs row col value
   = Ok (Some (mkError (rule_code self) s (Some value) row col))) ∧
  (∀ v, run contract args kwargs = Returned v →
   is_str v = false → truthy v = false →
   _validate self contract args kwargs row col value
   = Ok (Some (mkError (rule_code self) (rule_message self) (Some value) row col))) ∧
  (∀ v, run contract args kwargs = Returned v →
   is_str v = false → truthy v = true →
   _validate self contract args kwargs row col value = Ok None).
Proof.
  unfold _validate. repeat split.
  - by intros ->.
  - by intros s ->.
  - intros v -> Hstr Hfalsy. destruct v; try done; simpl in *; by rewrite Hfalsy.
  - intros v -> Hstr Htruthy. destruct v; try done; simpl in *; by rewrite Htruthy.
Qed.

Lemma validate_outcomes_witness :
  _validate CheckExamples.self (Builtins.contract_of PRE [] RaisedNameError)
            [VInt 1] ∅ 3 0 "deal.pre" = Ok None
  ∧ _validate CheckExamples.self
              (Builtins.contract_of PRE [] (Returned (VStr "must be positive")))
              [VInt 1] ∅ 3 0 "deal.pre"
    = Ok (Some (mkError 13 "must be positive" (Some "deal.pre") 3 0))
  ∧ _validate CheckExamples.self (Builtins.contract_of PRE [] (Returned (VInt 0)))
              [VInt 1] ∅ 3 0 "deal.pre"
    = Ok (Some (mkError 13 "example violates contract" (Some "deal.pre") 3 0))
  ∧ _validate CheckExamples.self (Builtins.contract_of PRE [] (Returned (VBool true)))
              [VInt 1] ∅ 3 0 "deal.pre" = Ok None.
Proof.
  split; [|split; [|split]].
  - exact (proj1 (validate_outcomes CheckExamples.self
                    (Builtins.contract_of PRE [] RaisedNameError)
                    [VInt 1] ∅ 3 0 "deal.pre") eq_refl).
  - exact (proj1 (proj2 (validate_outcomes CheckExamples.self
                    (Builtins.contract_of PRE [] (Returned (VStr "must be positive")))
                    [VInt 1] ∅ 3 0 "deal.pre")) "must be positive" eq_refl).
  - exact (proj1 (proj2 (proj2 (validate_outcomes CheckExamples.self
                    (Builtins.contract_of PRE [] (Returned (VInt 0)))
                    [VInt 1] ∅ 3 0 "deal.pre"))) (VInt 0) eq_refl eq_refl eq_refl).
  - exact (proj2 (proj2 (proj2 (validate_outcomes CheckExamples.self
                    (Builtins.contract_of PRE [] (Returned (VBool true)))
                    [VInt 1] ∅ 3 0 "deal.pre"))) (VBool true) eq_refl eq_refl eq_refl).
Defined.

(** ** Loops that yield one diagnostic per item *)

Lemma for_yield_singleton {A B} (f : A → B) (xs : list A) :
  for_yield xs (fun x => [f x]) = map f xs.
Proof. unfold for_yield. induction xs as [|x xs IH]; simpl; by f_equal. Qed.

Lemma for_yield_skip {A B} (skip : A → bool) (f : A → B) (xs : list A) :
  for_yield xs (fun x => if skip x then [] else [f x])
  = map f (filter (fun x => skip x = false) xs).
Proof.
  unfold for_yield. induction xs as [|x xs IH]; [done|].
  simpl. rewrite filter_cons. destruct (skip x) eqn:Hk.
  - rewrite decide_False by (by intros ?). by rewrite IH.
  - rewrite decide_True by done. simpl. by rewrite IH.
Qed.

(** ** The precondition call-site rule *)

(** C6. The precondition call-site rule (code 11) yields nothing for a
    function whose contract list is empty.  For a function with at least one
    contract it calls [get_pre] with the resolution context of the first
    contract of the list, and yields one diagnostic per token. *)
Theorem CheckPre_first_contract_context `{Extractors}
    (func : Func) (stubs : option StubsManager) :
  (contracts func = [] → CheckPre.__call__ func stubs = []) ∧
  (∀ first rest, contracts func = first :: rest →
     CheckPre.__call__ func stubs
     = map Spec.pre_diagnostic (get_pre (body func) (context first))).
Proof.
  unfold CheckPre.__call__. split.
  - by intros ->.
  - intros first rest ->. by rewrite for_yield_singleton.
Qed.

(** ** The assertion rule *)

(** C9. The assertion rule (code 31) yields one diagnostic per assert token
    of the body, with the text of the asserted condition as its value, for
    every function that the naming convention of tests does not exempt, and
    nothing for an exempted function; the exempted functions are those whose
    name starts with "test_". *)
Theorem CheckAsserts_flags_every_assert `{Extractors}
    (func : Func) (stubs : option StubsManager) :
  (¬ Spec.exempted (name func) →
     CheckAsserts.__call__ func stubs
     = map Spec.assert_diagnostic (get_asserts (body func))) ∧
  (Spec.exempted (name func) → CheckAsserts.__call__ func stubs = []).
Proof.
  unfold CheckAsserts.__call__, Spec.exempted.
  destruct (String.prefix "test_" (name func)) eqn:Hp.
  - apply prefix_starts_with in Hp. split; [by intros []|done].
  - split.
    + intros _. by rewrite for_yield_singleton.
    + intros Hs%prefix_starts_with. congruence.
Qed.

(** ** The marker rule *)

Section Markers.
Context `{Extractors} `{HasProperties}.

Lemma codes_get_marker_code (m : string) :
  CheckMarkers.codes_get m = Spec.marker_code m.
Proof.
  unfold CheckMarkers.codes_get, CheckMarkers.codes, Spec.marker_code.
  simpl.
  repeat match goal with
  | |- context [String.eqb ?a ?b] =>
      destruct (String.eqb_spec a b) as [->|?];
      [by vm_compute | rewrite lookup_insert_ne by done]
  end.
  by rewrite lookup_empty.
Qed.

(** the first HAS or PURE contract decides, whatever follows it *)
Lemma call_loop_first (func : Func) (before : list Contract)
    (contract : Contract) (rest : list Contract) (ms : list string) :
  Forall Spec.no_markers before →
  Spec.declares contract ms →
  CheckMarkers.call_loop func (before ++ contract :: rest)
  = CheckMarkers._check func (Has_new ms).
Proof.
  intros Hbefore Hdecl.
  induction Hbefore as [|c before [Hhas Hpure] _ IH]; simpl.
  - unfold CheckMarkers.declared_markers.
    destruct Hdecl as [[Hcat ->]|[Hcat ->]].
    + by rewrite decide_True.
    + rewrite decide_False by congruence. by rewrite decide_True.
  - unfold CheckMarkers.declared_markers.
    by rewrite !decide_False.
Qed.

Lemma call_loop_none (func : Func) (cs : list Contract) :
  Forall Spec.no_markers cs → CheckMarkers.call_loop func cs = gen_return.
Proof.
  induction 1 as [|c cs [Hhas Hpure] _ IH]; [done|].
  simpl. unfold CheckMarkers.declared_markers. by rewrite !decide_False.
Qed.

Lemma check_token_named (has : Has) (token : Token PyVal) :
  Spec.named token → raised (CheckMarkers.check_token has token) = None.
Proof.
  intros (m & Hm & Hne). unfold CheckMarkers.check_token. rewrite Hm.
  destruct (String.eqb_spec m "") as [->|_]; [done|].
  by repeat case_match.
Qed.

Lemma check_token_not_allowed (has : Has) (token : Token PyVal) (m : string) :
  marker token = Some m → m ≠ "" →
  Props.allowed_marker has m = false →
  CheckMarkers.check_token has token
  = gen_yield (Spec.marker_diagnostic m token) gen_return.
Proof.
  intros Hm Hne Hallowed. unfold CheckMarkers.check_token. rewrite Hm.
  destruct (String.eqb_spec m "") as [->|_]; [done|].
  unfold Spec.marker_diagnostic. rewrite codes_get_marker_code.
  unfold Props.allowed_marker in Hallowed. by rewrite Hallowed.
Qed.

(** what the loop over the marker tokens yields lies at a token *)
Lemma check_token_position (has : Has) (token : Token PyVal) (e : Error) :
  e ∈ yielded (CheckMarkers.check_token has token) →
  row e = line token ∧ err_col e = col token.
Proof.
  unfold CheckMarkers.check_token, gen_yield, gen_raise, gen_return.
  repeat case_match; simpl; try (by intros ?%elem_of_nil).
  all: by intros ->%list_elem_of_singleton.
Qed.

End Markers.

Lemma filter_none {A} (P : A → Prop) `{∀ x, Decision (P x)} (l : list A) :
  (∀ x, x ∈ l → ¬ P x) → filter P l = [].
Proof.
  induction l as [|x l IH]; [done|].
  intros Hl. rewrite filter_cons_False by (apply Hl; left).
  apply IH. intros y Hy. apply Hl. by right.
Qed.


Section MarkerClaims.
Context `{Extractors} `{HasProperties}.

(** the first statement of [_check] never raises *)
Lemma check_split (func : Func) (has : Has) :
  ∃ first,
    first = (if negb (has_io has) && negb (has_returns (body func))
             then [Spec.no_return_diagnostic func] else []) ∧
    yielded (CheckMarkers._check func has)
    = first ++ yielded (gen_for (get_markers (body func))
                                (CheckMarkers.check_token has)).
Proof.
  eexists. split; [done|]. unfold CheckMarkers._check.
  rewrite codes_get_marker_code.
  destruct (negb (has_io has) && negb (has_returns (body func))); done.
Qed.

(** C10. When a function carries several HAS or PURE contracts, the marker
    rule takes the declared markers from the first of them in declaration
    order and stops after checking it: its result is that of the check
    against this contract alone, and it stays the same whatever contracts
    follow, so markers listed on later HAS or PURE contracts change
    nothing. *)
Theorem CheckMarkers_first_marker_contract_only
    (fname : string) (fbody : Body) (fline fcol : Z)
    (before : list Contract) (contract : Contract)
    (rest rest' : list Contract) (ms : list string)
    (stubs : option StubsManager) :
  Forall Spec.no_markers before →
  Spec.declares contract ms →
  CheckMarkers.__call__
    (mkFunc fname fbody (before ++ contract :: rest) fline fcol) stubs
  = CheckMarkers._check
      (mkFunc fname fbody (before ++ contract :: rest) fline fcol) (Has_new ms)
  ∧ CheckMarkers.__call__
      (mkFunc fname fbody (before ++ contract :: rest) fline fcol) stubs
    = CheckMarkers.__call__
        (mkFunc fname fbody (before ++ contract :: rest') fline fcol) stubs.
Proof.
  intros Hbefore Hdecl. unfold CheckMarkers.__call__. simpl.
  by rewrite !(call_loop_first _ _ _ _ ms).
Qed.

(** C3, as the code has it.  For a function whose first HAS or PURE contract
    declares the marker set [ms] (the listed markers of a HAS contract, the
    empty set for a PURE contract), every extracted marker token whose marker
    the object [Has] built from [ms] does not allow gets a diagnostic whose
    code is the sub-code of the marker (41 global, 42 import, 43 io, 44 read,
    45 write, 46 stdout, 47 stderr, 48 network, and 40 for any other marker
    name: the table [codes] of the rule gives these codes) and whose value is
    the marker.  A marker is not allowed when the property [has_<marker>] of
    the object is false or, when the class has no such property, when the
    marker is not in [ms]; a marker outside [ms] that a property allows is
    not flagged.  A function with neither a HAS nor a PURE contract gets no
    diagnostic from the rule.  The marker tokens name their marker. *)
Theorem CheckMarkers_flags_undeclared_markers :
  (∀ (func : Func) (stubs : option StubsManager)
     (before : list Contract) (contract : Contract) (rest : list Contract)
     (ms : list string) (token : Token PyVal) (m : string),
     contracts func = before ++ contract :: rest →
     Forall Spec.no_markers before →
     Spec.declares contract ms →
     Forall Spec.named (get_markers (body func)) →
     token ∈ get_markers (body func) →
     marker token = Some m →
     Props.allowed_marker (Has_new ms) m = false →
     Spec.marker_diagnostic m token ∈ yielded (CheckMarkers.__call__ func stubs))
  ∧ (∀ (ms : list string) (m : string),
     getattr_has (Has_new ms) ("has_" +:+ m) = None →
     (Props.allowed_marker (Has_new ms) m = false ↔ m ∉ ms))
  ∧ (∀ (func : Func) (stubs : option StubsManager),
     Forall Spec.no_markers (contracts func) →
     CheckMarkers.__call__ func stubs = gen_return)
  ∧ (∀ m : string, CheckMarkers.codes_get m = Spec.marker_code m).
Proof.
  split; [|split; [|split]].
  - intros func stubs before contract rest ms token m
           Hcs Hbefore Hdecl Hnamed Htoken Hm Hallowed.
    unfold CheckMarkers.__call__. rewrite Hcs.
    rewrite (call_loop_first _ _ _ _ ms) by done.
    destruct (check_split func (Has_new ms)) as (first & _ & ->).
    apply elem_of_app. right.
    rewrite gen_for_total.
    2:{ eapply Forall_impl; [exact Hnamed|]. intros t. apply check_token_named. }
    simpl. apply list_elem_of_In, in_flat_map. exists token.
    split; [by apply list_elem_of_In|].
    assert (m ≠ "") as Hne.
    { rewrite Forall_forall in Hnamed.
      destruct (Hnamed _ Htoken) as (m' & Hm' & Hne). congruence. }
    rewrite (check_token_not_allowed _ _ m) by done. by left.
  - intros ms m Hnone. unfold Props.allowed_marker. rewrite Hnone. simpl.
    by rewrite bool_decide_eq_false, elem_of_list_to_set.
  - intros func stubs Hnone. by apply call_loop_none.
  - apply codes_get_marker_code.
Qed.

(** C4, as the code has it.  For a function with a HAS or PURE contract,
    [has] being the object [Has] built from the marker set of the first such
    contract: when [has.has_io] is false and the body does not return on
    every terminal path, the rule yields exactly one diagnostic with code 43
    and value "io" at the function's position; when every terminal path
    returns, or when [has.has_io] holds, it yields none.  Whether [has_io]
    holds is for the class [Has] to say: a declared set without "io" can
    make it hold.  The marker tokens of the body lie elsewhere than at the
    function's own position. *)
Theorem CheckMarkers_io_needs_return
    (func : Func) (stubs : option StubsManager)
    (before : list Contract) (contract : Contract) (rest : list Contract)
    (ms : list string) :
  contracts func = before ++ contract :: rest →
  Forall Spec.no_markers before →
  Spec.declares contract ms →
  Forall (Spec.inside func) (get_markers (body func)) →
  length (filter (fun e => Spec.is_io_flag func e = true)
                 (yielded (CheckMarkers.__call__ func stubs)))
  = if negb (has_io (Has_new ms)) && negb (has_returns (body func))
    then 1%nat else 0%nat.
Proof.
  intros Hcs Hbefore Hdecl Hinside.
  unfold CheckMarkers.__call__. rewrite Hcs.
  rewrite (call_loop_first _ _ _ _ ms) by done.
  destruct (check_split func (Has_new ms)) as (first & Hfirst & ->).
  rewrite filter_app.
  rewrite (filter_none _ (yielded (gen_for _ _))).
  2:{ intros e (token & Htoken & He)%gen_for_yielded_from.
      apply check_token_position in He as [Hrow Hcol].
      rewrite Forall_forall in Hinside. specialize (Hinside _ Htoken).
      unfold Spec.inside in Hinside. unfold Spec.is_io_flag.
      rewrite bool_decide_eq_true. intros (_ & _ & Hr & Hc).
      apply Hinside. congruence. }
  rewrite app_nil_r, Hfirst.
  destruct (negb (has_io (Has_new ms)) && negb (has_returns (body func)));
    [|done].
  rewrite filter_cons_True; [done|]. unfold Spec.is_io_flag.
  by rewrite bool_decide_eq_true.
Qed.

End MarkerClaims.

(** ** The exception rule *)

Section RaisesClaims.
Context `{Extractors}.

Lemma issubclass_allowed_types (c : PyClass) (allowed : list ExcValue) :
  existsb (issubclass c) (omap CheckRaises.not_str allowed)
  = existsb (fun a => match a with
                      | ExcType d => issubclass c d
                      | ExcName _ => false
                      end) allowed.
Proof.
  induction allowed as [|[d|s] allowed IH]; simpl; [done| |exact IH].
  f_equal. exact IH.
Qed.

(** the check of one contract flags the tokens that its own declared
    exceptions do not cover *)
Lemma check_one_contract (func : Func) (contract : Contract)
    (stubs : option StubsManager) :
  CheckRaises._check func contract stubs
  = Spec.uncovered (exceptions contract) (get_exceptions (body func) stubs).
Proof.
  unfold CheckRaises._check, Spec.uncovered, for_yield.
  rewrite <- for_yield_skip. apply flat_map_ext. intros token.
  unfold Spec.covered, Spec.raises_diagnostic, Spec.offending_name.
  destruct (bool_decide (value token ∈ exceptions contract)); [done|].
  destruct (value token) as [c|s]; [|done].
  rewrite issubclass_allowed_types. simpl.
  by destruct (existsb _ (exceptions contract)).
Qed.

(** C1, as the code has it.  The exception rule (code 21) checks every
    RAISES, SAFE or PURE contract on its own, in declaration order: for each
    such contract it yields one diagnostic for each raised-error token whose
    value is neither among the identifiers and types that this contract
    declares nor a subclass of one of the types it declares; the diagnostic
    carries the name of the offending type, or the unresolved name.  The
    declared sets of different contracts are not unioned. *)
Theorem CheckRaises_checks_each_contract
    (func : Func) (stubs : option StubsManager) :
  CheckRaises.__call__ func stubs = Spec.check_raises_each func stubs.
Proof.
  unfold CheckRaises.__call__, Spec.check_raises_each, for_yield.
  induction (contracts func) as [|contract cs IH]; [done|].
  simpl. rewrite IH, filter_cons, check_one_contract.
  unfold Spec.declares_exceptions, CheckRaises.cats.
  destruct (category contract); vm_compute bool_decide; simpl; done.
Qed.

End RaisesClaims.

(** C1, as stated, fails: [ValueError] is in the union of what the two
    contracts declare, so the union rule has nothing to flag, and yet the
    rule flags it for the contract that declares only [KeyError]. *)
Lemma CheckRaises_union_counterexample :
  Spec.check_raises_union Inputs.two_raises None = [] ∧
  CheckRaises.__call__ Inputs.two_raises None
  = [mkError 21 "raises contract error" (Some "ValueError") 4 4] ∧
  CheckRaises.__call__ Inputs.two_raises None
  ≠ Spec.check_raises_union Inputs.two_raises None.
Proof. split; [|split]; [reflexivity|reflexivity|discriminate]. Qed.

(** ** The example rule *)

Lemma omap_flat_map {A B} (f : A → option B) (l : list A) :
  omap f l = flat_map (fun x => option_list (f x)) l.
Proof.
  induction l as [|x l IH]; [done|].
  simpl. rewrite <- IH. by destruct (f x).
Qed.

Lemma flat_map_ext_elem {A B} (f g : A → list B) (l : list A) :
  (∀ x, x ∈ l → f x = g x) → flat_map f l = flat_map g l.
Proof.
  induction l as [|x l IH]; [done|].
  intros Hfg. simpl. rewrite Hfg by left.
  f_equal. apply IH. intros y Hy. apply Hfg. by right.
Qed.

Section ExampleClaims.
Context `{Extractors}.





End ExampleClaims.

(** ** The aliases *)

Section AliasClaims.
Context `{Aliases.DecoratorCall} `{Extractors} `{HasProperties}.

(** the marker rule reads a PURE contract as a HAS contract without
    markers *)
Lemma call_loop_pure_as_has (func : Func) (before rest : list Contract)
    (pure_c has_c : Contract) :
  category pure_c = PURE → category has_c = HAS → args has_c = [] →
  CheckMarkers.call_loop func (before ++ pure_c :: rest)
  = CheckMarkers.call_loop func (before ++ has_c :: rest).
Proof.
  intros Hpure Hhas Hargs.
  induction before as [|c before IH]; simpl.
  - unfold CheckMarkers.declared_markers.
    rewrite Hpure, Hhas, Hargs. done.
  - by rewrite IH.
Qed.

(** the marker rule reads the body and the position of the function, and
    the contract list it is given *)
Lemma call_loop_same_body (func func' : Func) (cs : list Contract) :
  body func = body func' →
  func_line func = func_line func' →
  func_col func = func_col func' →
  CheckMarkers.call_loop func cs = CheckMarkers.call_loop func' cs.
Proof.
  intros Hb Hl Hc. induction cs as [|c cs IH]; [done|].
  simpl. rewrite IH. unfold CheckMarkers._check. by rewrite Hb, Hl, Hc.
Qed.

(** C7. Applying the [safe] alias to a function is applying [raises()]
    with no exceptions to it, and [safe] called with keyword arguments only
    is [raises] with no exceptions and these keyword arguments; applying the
    [pure] alias is applying [has()] with no markers and then [safe].  In
    the linter, the marker rule reads a PURE contract as a HAS contract
    without markers, and the exception rule reads a SAFE or PURE contract as
    a RAISES contract with the same declared exceptions. *)
Theorem safe_and_pure_are_aliases :
  (∀ (f : Aliases.Callable) (kw : Aliases.Kwargs),
     Aliases.safe (Some f) kw
     = Aliases.decorate (Aliases.raises [] Aliases.no_kwargs) f)
  ∧ (∀ kw : Aliases.Kwargs, Aliases.safe None kw = Aliases.raises [] kw)
  ∧ (∀ f : Aliases.Callable,
     Aliases.pure f
     = Aliases.safe
         (Some (Aliases.decorate (Aliases.has [] Aliases.no_kwargs) f))
         Aliases.no_kwargs)
  ∧ (∀ f : Aliases.Callable,
     Aliases.pure f
     = Aliases.decorate (Aliases.raises [] Aliases.no_kwargs)
         (Aliases.decorate (Aliases.has [] Aliases.no_kwargs) f))
  ∧ (∀ fname fbody fline fcol (before rest : list Contract) stubs
       a ctx e r ctx' e' r',
     CheckMarkers.__call__
       (mkFunc fname fbody (before ++ mkContract PURE a ctx e r :: rest)
               fline fcol) stubs
     = CheckMarkers.__call__
         (mkFunc fname fbody (before ++ mkContract HAS [] ctx' e' r' :: rest)
                 fline fcol) stubs)
  ∧ (∀ fname fbody fline fcol (before rest : list Contract) stubs
       a ctx e r,
     CheckRaises.__call__
       (mkFunc fname fbody (before ++ mkContract SAFE a ctx e r :: rest)
               fline fcol) stubs
     = CheckRaises.__call__
         (mkFunc fname fbody (before ++ mkContract RAISES a ctx e r :: rest)
                 fline fcol) stubs)
  ∧ (∀ fname fbody fline fcol (before rest : list Contract) stubs
       a ctx e r,
     CheckRaises.__call__
       (mkFunc fname fbody (before ++ mkContract PURE a ctx e r :: rest)
               fline fcol) stubs
     = CheckRaises.__call__
         (mkFunc fname fbody (before ++ mkContract RAISES a ctx e r :: rest)
                 fline fcol) stubs).
Proof.
  repeat split; try reflexivity.
  - intros. unfold CheckMarkers.__call__. cbn [contracts].
    rewrite (call_loop_pure_as_has _ _ _ _ (mkContract HAS [] ctx' e' r'))
      by done.
    by apply call_loop_same_body.
  - intros. unfold CheckRaises.__call__, for_yield. cbn [contracts].
    by rewrite !flat_map_app.
  - intros. unfold CheckRaises.__call__, for_yield. cbn [contracts].
    by rewrite !flat_map_app.
Qed.

End AliasClaims.

(** ** The transformer *)

Section TransformerClaims.
Import Transformer.

















End TransformerClaims.

(** ** The theorems at concrete functions *)

Lemma CheckPre_first_contract_context_witness :
  CheckPre.__call__ Inputs.calling_uncontracted None = [] ∧
  CheckPre.__call__ Inputs.calling None
  = map Spec.pre_diagnostic (get_pre (body Inputs.calling) 7%nat).
Proof.
  split.
  - exact (proj1 (CheckPre_first_contract_context
                    Inputs.calling_uncontracted None) eq_refl).
  - exact (proj2 (CheckPre_first_contract_context Inputs.calling None)
                 (Inputs.pre_contract 7) [Inputs.pre_contract 9] eq_refl).
Defined.

Lemma CheckAsserts_flags_every_assert_witness :
  CheckAsserts.__call__ (Inputs.asserting "check") None
  = map Spec.assert_diagnostic [Inputs.assert_token] ∧
  CheckAsserts.__call__ (Inputs.asserting "test_check") None = [].
Proof.
  split.
  - assert (¬ Spec.exempted "check") as Hcheck
      by (intros Hs%prefix_starts_with; discriminate Hs).
    exact (proj1 (CheckAsserts_flags_every_assert
                    (Inputs.asserting "check") None) Hcheck).
  - assert (Spec.exempted "test_check") as Htest by (by exists "check").
    exact (proj2 (CheckAsserts_flags_every_assert
                    (Inputs.asserting "test_check") None) Htest).
Defined.

Lemma CheckMarkers_first_marker_contract_only_witness :
  CheckMarkers.__call__ Inputs.stdout_then_io None
  = CheckMarkers._check Inputs.stdout_then_io (Has_new ["stdout"])
  ∧ CheckMarkers.__call__ Inputs.stdout_then_io None
    = CheckMarkers.__call__
        (mkFunc "f" Inputs.body_printing [Inputs.has_contract ["stdout"]] 1 0)
        None.
Proof.
  apply (@CheckMarkers_first_marker_contract_only
           _ _ Builtins.facts_extractors Builtins.declared_set_has
           "f" Inputs.body_printing 1 0 [] (Inputs.has_contract ["stdout"])
           [Inputs.has_contract ["io"]] [] ["stdout"] None).
  - constructor.
  - left. split; reflexivity.
Defined.

Lemma CheckMarkers_flags_undeclared_markers_witness :
  Spec.marker_diagnostic "stdout" Inputs.print_token
  ∈ yielded (IoFamily.check_markers IoFamily.read_declared_printing)
  ∧ (@Props.allowed_marker IoFamily.io_family_has (Has_new ["read"]) "global"
     = false ↔ "global" ∉ ["read"])
  ∧ CheckMarkers.__call__ Inputs.calling None = gen_return.
Proof.
  split; [|split].
  - unfold IoFamily.check_markers.
    apply (proj1 (@CheckMarkers_flags_undeclared_markers
                    _ _ Builtins.facts_extractors IoFamily.io_family_has)
                 IoFamily.read_declared_printing None
                 [] (Inputs.has_contract ["read"]) [] ["read"]
                 Inputs.print_token "stdout").
    + reflexivity.
    + constructor.
    + left. split; reflexivity.
    + constructor; [|constructor; [|constructor]].
      * exists "stdout". split; [reflexivity|discriminate].
      * exists "read". split; [reflexivity|discriminate].
    + left.
    + reflexivity.
    + reflexivity.
  - apply (proj1 (proj2 (@CheckMarkers_flags_undeclared_markers
                           _ _ Builtins.facts_extractors
                           IoFamily.io_family_has))
                 ["read"] "global").
    reflexivity.
  - apply (proj1 (proj2 (proj2 CheckMarkers_flags_undeclared_markers))
             Inputs.calling None).
    repeat constructor; discriminate.
Defined.

Lemma CheckMarkers_io_needs_return_witness :
  length (filter (fun e => Spec.is_io_flag Inputs.pure_printing e = true)
                 (yielded (IoFamily.check_markers Inputs.pure_printing)))
  = 1%nat
  ∧ length (filter (fun e =>
                      Spec.is_io_flag IoFamily.read_declared_printing e = true)
                   (yielded (IoFamily.check_markers
                               IoFamily.read_declared_printing)))
    = 0%nat.
Proof.
  unfold IoFamily.check_markers. split.
  - change 1%nat
      with (if negb (@has_io IoFamily.io_family_has (Has_new []))
               && negb (has_returns (body Inputs.pure_printing))
            then 1%nat else 0%nat).
    apply (@CheckMarkers_io_needs_return
             _ _ Builtins.facts_extractors IoFamily.io_family_has
             Inputs.pure_printing None [] Inputs.pure_contract [] []).
    + reflexivity.
    + constructor.
    + right. split; reflexivity.
    + constructor; [|constructor]. unfold Spec.inside. simpl. discriminate.
  - change 0%nat
      with (if negb (@has_io IoFamily.io_family_has (Has_new ["read"]))
               && negb (has_returns (body IoFamily.read_declared_printing))
            then 1%nat else 0%nat).
    apply (@CheckMarkers_io_needs_return
             _ _ Builtins.facts_extractors IoFamily.io_family_has
             IoFamily.read_declared_printing None
             [] (Inputs.has_contract ["read"]) [] ["read"]).
    + reflexivity.
    + constructor.
    + left. split; reflexivity.
    + constructor; [|constructor; [|constructor]];
        unfold Spec.inside; simpl; discriminate.
Defined.

(** C3, as stated, fails: under [has("io")] the marker "stdout" of a
    [print] is not in the declared set, and the rule does not flag it,
    because the property [has_stdout] of the object allows it. *)
Lemma CheckMarkers_declared_set_counterexample :
  Spec.declares (Inputs.has_contract ["io"]) ["io"] ∧
  Inputs.print_token ∈ get_markers (body IoFamily.io_declared_printing) ∧
  marker Inputs.print_token = Some "stdout" ∧
  ("stdout" ∉ ["io"]) ∧
  IoFamily.check_markers IoFamily.io_declared_printing = gen_return ∧
  Spec.marker_diagnostic "stdout" Inputs.print_token
  ∉ yielded (IoFamily.check_markers IoFamily.io_declared_printing).
Proof.
  split_and!.
  - left. split; reflexivity.
  - left.
  - reflexivity.
  - intros Hin%list_elem_of_singleton. discriminate Hin.
  - reflexivity.
  - apply not_elem_of_nil.
Qed.

(** C4, as stated, fails: under [has("stdout")] the declared set does not
    include "io" and the body returns on no path, and the rule yields no
    diagnostic with code 43, because [has_io] holds for this set. *)
Lemma CheckMarkers_io_not_declared_counterexample :
  Spec.declares (Inputs.has_contract ["stdout"]) ["stdout"] ∧
  ("io" ∉ ["stdout"]) ∧
  has_returns (body IoFamily.stdout_declared_silent) = false ∧
  IoFamily.check_markers IoFamily.stdout_declared_silent = gen_return ∧
  length (filter (fun e =>
                    Spec.is_io_flag IoFamily.stdout_declared_silent e = true)
                 (yielded (IoFamily.check_markers
                             IoFamily.stdout_declared_silent)))
  = 0%nat.
Proof.
  split_and!.
  - left. split; reflexivity.
  - intros Hin%list_elem_of_singleton. discriminate Hin.
  - reflexivity.
  - reflexivity.
  - reflexivity.
Qed.



(** ** The rules on the examples of the specification *)

Example str_of_int_samples :
  str_of_int 13 = "13" ∧ str_of_int (-3) = "-3" ∧ str_of_int 0 = "0"
  ∧ str_of_int 1050 = "1050".
Proof. repeat split; reflexivity. Qed.

(** The sub-codes of the markers. *)
Example marker_code_table :
  map Spec.marker_code
      ["global"; "import"; "io"; "read"; "write"; "stdout"; "stderr";
       "network"; "syscall"]
  = [41; 42; 43; 44; 45; 46; 47; 48; 40].
Proof. reflexivity. Qed.

(** A function declared pure that returns on no path is flagged with the
    sub-code of "io"; with a return on every path it is not. *)
Example pure_function_must_return :
  CheckMarkers.__call__ Inputs.pure_passing None
  = mkGen [mkError 43 "missed marker" (Some "io") 1 0] None
  ∧ CheckMarkers.__call__ Inputs.pure_returning None = mkGen [] None.
Proof. split; reflexivity. Qed.

(** A pure function that prints without returning gets both flags, in the
    order of the two checks. *)
Example pure_function_printing :
  CheckMarkers.__call__ Inputs.pure_printing None
  = mkGen [mkError 43 "missed marker" (Some "io") 1 0;
           mkError 46 "missed marker" (Some "stdout") 3 4] None.
Proof. reflexivity. Qed.

(** A marker token without its marker ends the rule on the assertion. *)
Example marker_token_without_marker :
  CheckMarkers.__call__
    (mkFunc "f" (Builtins.mkBody (fun _ => []) [] []
                   [mkToken (VStr "print") 3 4 None] true)
            [Inputs.pure_contract] 1 0) None
  = mkGen [] (Some AssertionError).
Proof. reflexivity. Qed.

(** The exception rule accepts a subclass of a declared class and flags an
    unresolved name that is not declared. *)
Example raises_subclass_and_name :
  CheckRaises.__call__
    (mkFunc "f" (Builtins.mkBody (fun _ => [])
                   [mkToken (ExcType Builtins.KeyError) 2 4 None;
                    mkToken (ExcName "UnknownError") 3 4 None] [] [] true)
            [Inputs.raises_contract [ExcType Builtins.LookupError]] 1 0) None
  = [mkError 21 "raises contract error" (Some "UnknownError") 3 4].
Proof. reflexivity. Qed.

(** * Further properties of the rules *)

(** ** Generators, continued *)

Lemma gen_for_quiet {A B} (xs : list A) (body : A → Gen B) :
  (∀ x, x ∈ xs → body x = gen_return) → gen_for xs body = gen_return.
Proof.
  induction xs as [|x xs IH]; [done|].
  intros Hq. simpl. rewrite Hq by left. rewrite gen_then_return_l.
  apply IH. intros y Hy. apply Hq. by right.
Qed.

(** An exception that ends a loop was raised by one of its iterations. *)
Lemma gen_for_raised_from {A B} (xs : list A) (body : A → Gen B) (e : Exn) :
  raised (gen_for xs body) = Some e → ∃ x, x ∈ xs ∧ raised (body x) = Some e.
Proof.
  induction xs as [|x xs IH]; simpl; [done|].
  unfold gen_then. destruct (raised (body x)) as [e'|] eqn:Hx.
  - rewrite Hx. intros [= ->]. exists x. split; [left|done].
  - simpl. intros (y & Hy & He)%IH. exists y. split; [by right|done].
Qed.

(** ** The validator runner, continued *)

Section ValidateShape.
Context `{PyTypes, Ast}.

Lemma validate_some (self : Rule) (contract : Contract)
    (a : list PyVal) (k : gmap string PyVal)
    (r c : Z) (label : string) (e : Error) :
  _validate self contract a k r c label = Ok (Some e) →
  code e = rule_code self ∧ row e = r ∧ err_col e = c ∧
  err_value e = Some label ∧
  (text e = rule_message self ∨ run contract a k = Returned (VStr (text e))).
Proof.
  unfold _validate. destruct (run contract a k) as [result| |name]; [|done..].
  destruct result as [|b|z|s|repr t]; simpl;
    repeat case_match; intros [= <-]; simpl; repeat split; auto.
Qed.

Lemma validate_raise (self : Rule) (contract : Contract)
    (a : list PyVal) (k : gmap string PyVal)
    (r c : Z) (label : string) (exn : Exn) :
  _validate self contract a k r c label = Raise exn ↔
  ∃ name, run contract a k = RaisedOther name ∧ exn = OtherError name.
Proof.
  unfold _validate. destruct (run contract a k) as [result| |name].
  - split; [|by intros (name & ? & _)].
    destruct result; simpl; repeat case_match; done.
  - split; [done|by intros (name & ? & _)].
  - split.
    + intros [= <-]. by exists name.
    + by intros (name' & [= <-] & ->).
Qed.

(** what a validation yields has the shape of [validate_some] *)
Lemma validated_yielded (self : Rule) (contract : Contract)
    (a : list PyVal) (k : gmap string PyVal)
    (r c : Z) (label : string) (e : Error) :
  e ∈ yielded (yield_validated (_validate self contract a k r c label)) →
  _validate self contract a k r c label = Ok (Some e).
Proof.
  destruct (_validate self contract a k r c label) as [[e'|]|exn]; simpl.
  - by intros ->%list_elem_of_singleton.
  - by intros ?%elem_of_nil.
  - by intros ?%elem_of_nil.
Qed.

Lemma validated_raised (self : Rule) (contract : Contract)
    (a : list PyVal) (k : gmap string PyVal)
    (r c : Z) (label : string) (exn : Exn) :
  raised (yield_validated (_validate self contract a k r c label)) = Some exn →
  ∃ name, run contract a k = RaisedOther name ∧ exn = OtherError name.
Proof.
  destruct (_validate self contract a k r c label) as [[e'|]|exn'] eqn:Hv;
    simpl; try done.
  intros [= <-]. by apply validate_raise in Hv.
Qed.

(** X5. Whatever the rule and the contract: a diagnostic that [_validate]
    gives carries the code of the rule and the row, column and value it was
    called with, and its text is the message of the rule or the string that
    the validator returned; [_validate] raises exactly when the validator
    raises something that [except NameError] does not catch, and it raises
    that same error. *)
Theorem validate_keeps_error_info (self : Rule) (contract : Contract)
    (a : list PyVal) (k : gmap string PyVal) (r c : Z) (label : string) :
  (∀ e, _validate self contract a k r c label = Ok (Some e) →
     code e = rule_code self ∧ row e = r ∧ err_col e = c ∧
     err_value e = Some label ∧
     (text e = rule_message self ∨
      run contract a k = Returned (VStr (text e)))) ∧
  (∀ exn, _validate self contract a k r c label = Raise exn ↔
     ∃ name, run contract a k = RaisedOther name ∧ exn = OtherError name).
Proof. split; [apply validate_some|apply validate_raise]. Qed.

End ValidateShape.

(** ** The import rule *)

Section ImportClaims.
Context `{ModuleExtractors}.

Lemma check_imports_filter (tree : Tree) :
  CheckImports.__call__ tree
  = map Props.import_diagnostic
        (filter (fun token => value token = "deal")
                (get_imports (tree_body tree))).
Proof.
  unfold CheckImports.__call__. rewrite for_yield_skip. f_equal.
  apply list_filter_iff. intros token.
  rewrite negb_false_iff. apply String.eqb_eq.
Qed.

(** X1. The import rule (code 1) yields one diagnostic, without a value, at
    each import token whose module is [deal], in the order of the tokens, and
    none for the imports of other modules: it yields nothing exactly when no
    import token names [deal]. *)
Theorem CheckImports_flags_deal_imports (tree : Tree) :
  CheckImports.__call__ tree
  = map Props.import_diagnostic
        (filter Props.imports_deal (get_imports (tree_body tree)))
  ∧ (CheckImports.__call__ tree = [] ↔
     Forall (fun token => ¬ Props.imports_deal token)
            (get_imports (tree_body tree))).
Proof.
  unfold Props.imports_deal. rewrite check_imports_filter. split; [done|].
  induction (get_imports (tree_body tree)) as [|token tokens IH].
  - split; [constructor|done].
  - rewrite filter_cons. destruct (decide (value token = "deal")) as [Hd|Hd].
    + split; [done|]. intros Hall. by inversion Hall.
    + rewrite IH. split.
      * by constructor.
      * intros Hall. by inversion Hall.
Qed.

End ImportClaims.

(** ** The postcondition rule *)

Section ReturnsClaims.
Context `{ModuleExtractors}.

Lemma validated_return (contract : Contract) (token : Token PyVal) :
  (∀ e, run contract [value token] ∅ ≠ RaisedOther e) →
  yield_validated
    (_validate CheckReturns.self contract [value token] ∅
               (line token) (col token) (py_str (value token)))
  = mkGen (option_list (Props.return_violation contract token)) None.
Proof.
  intros Hrun. unfold _validate, Props.return_violation.
  destruct (run contract [value token] ∅) as [result| |e] eqn:Hr.
  - destruct result as [|b|z|s|r t]; simpl; try done.
    + by destruct b.
    + by destruct (Z.eqb z 0).
    + by destruct t.
  - done.
  - by destruct (Hrun e).
Qed.

(** X2. For every function whose POST validators raise nothing but binding
    failures on the returned values: the postcondition rule (code 12) takes
    the POST contracts in declaration order and, for each, the return tokens
    in order, and yields one diagnostic for each returned value that violates
    the contract, at the token, with the text of the returned value as its
    value; it ends without an exception. *)
Theorem CheckReturns_validates_every_return
    (func : Func) (stubs : option StubsManager) :
  Props.post_validators_bind_or_return func →
  CheckReturns.__call__ func stubs
  = mkGen (flat_map (fun contract =>
                       omap (Props.return_violation contract)
                            (get_returns (body func)))
                    (filter (fun c => category c = POST) (contracts func)))
          None.
Proof.
  intros Hrun. unfold CheckReturns.__call__.
  assert (∀ contract, contract ∈ contracts func →
            (if decide (category contract ≠ POST) then gen_return
             else CheckReturns._check func contract)
            = mkGen (if decide (category contract = POST)
                     then omap (Props.return_violation contract)
                               (get_returns (body func))
                     else [])
                    None) as Hbody.
  { intros contract Hin. destruct (decide (category contract = POST)) as [Hp|Hp].
    - rewrite decide_False by (by intros ?).
      unfold CheckReturns._check. rewrite omap_flat_map, gen_for_total.
      + f_equal. apply flat_map_ext_elem. intros token Htoken.
        rewrite validated_return; [done|]. intros e. by apply Hrun.
      + apply Forall_forall. intros token Htoken.
        rewrite validated_return; [done|]. intros e. by apply Hrun.
    - by rewrite decide_True. }
  rewrite gen_for_total.
  - f_equal. clear Hrun.
    induction (contracts func) as [|contract cs IH]; [done|].
    simpl. rewrite filter_cons, Hbody by left.
    rewrite IH by (intros c Hc; apply Hbody; by right).
    by destruct (decide (category contract = POST)).
  - apply Forall_forall. intros contract Hin. by rewrite Hbody.
Qed.

(** X3. The postcondition rule runs no validator, yields nothing and raises
    nothing for a function without a POST contract, whatever its body
    returns, and for a function whose body gives no return token, whatever
    its contracts are. *)
Theorem CheckReturns_nothing_to_validate
    (func : Func) (stubs : option StubsManager) :
  (Forall (fun c => category c ≠ POST) (contracts func) →
   CheckReturns.__call__ func stubs = gen_return) ∧
  (get_returns (body func) = [] →
   CheckReturns.__call__ func stubs = gen_return).
Proof.
  unfold CheckReturns.__call__. split.
  - intros Hnone. apply gen_for_quiet. intros contract Hin.
    rewrite Forall_forall in Hnone. by rewrite decide_True by by apply Hnone.
  - intros Hnil. apply gen_for_quiet. intros contract Hin.
    unfold CheckReturns._check. rewrite Hnil. by case_decide.
Qed.

(** X4. An exception leaves the postcondition rule only when the validator
    of a POST contract of the function raises, on a returned value, an error
    that [except NameError] does not catch; the rule then raises that
    error. *)
Theorem CheckReturns_raises_validator_errors
    (func : Func) (stubs : option StubsManager) (exn : Exn) :
  raised (CheckReturns.__call__ func stubs) = Some exn →
  ∃ contract token name,
    contract ∈ contracts func ∧ category contract = POST ∧
    token ∈ get_returns (body func) ∧
    run contract [value token] ∅ = RaisedOther name ∧
    exn = OtherError name.
Proof.
  unfold CheckReturns.__call__.
  intros (contract & Hin & Hraised)%gen_for_raised_from.
  destruct (decide (category contract ≠ POST)) as [Hp|Hp]; [done|].
  apply dec_stable in Hp.
  apply gen_for_raised_from in Hraised as (token & Htoken & Hraised).
  apply validated_raised in Hraised as (name & Hrun & ->).
  by exists contract, token, name.
Qed.

End ReturnsClaims.

(** ** The marker rule, continued *)

Section MarkerShape.
Context `{Extractors} `{HasProperties}.

Lemma declared_markers_declares (contract : Contract) (ms : list string) :
  CheckMarkers.declared_markers contract = Some ms ↔ Spec.declares contract ms.
Proof.
  unfold CheckMarkers.declared_markers, Spec.declares.
  destruct (decide (category contract = HAS)) as [Hh|Hh];
    [|destruct (decide (category contract = PURE)) as [Hp|Hp]].
  - split.
    + intros [= <-]. by left.
    + intros [[_ ->]|[Hp _]]; [done|congruence].
  - split.
    + intros [= <-]. by right.
    + by intros [[? _]|[_ ->]].
  - split; [done|]. by intros [[? _]|[? _]].
Qed.

Lemma marker_code_range (m : string) : 40 ≤ Spec.marker_code m ≤ 48.
Proof. unfold Spec.marker_code. repeat case_match; lia. Qed.

Lemma named_or_not (token : Token PyVal) :
  Spec.named token ∨ ¬ Spec.named token.
Proof.
  unfold Spec.named. destruct (marker token) as [m|].
  - destruct (decide (m = "")) as [->|Hm].
    + right. by intros (m' & [= <-] & ?).
    + left. by exists m.
  - right. by intros (m' & ? & _).
Qed.

Lemma check_token_unnamed (has : Has) (token : Token PyVal) :
  ¬ Spec.named token →
  CheckMarkers.check_token has token = gen_raise AssertionError.
Proof.
  intros Hn. unfold CheckMarkers.check_token.
  destruct (marker token) as [m|] eqn:Hm; [|done].
  destruct (String.eqb_spec m "") as [->|Hne]; [done|].
  destruct Hn. by exists m.
Qed.

Lemma check_token_raised (has : Has) (token : Token PyVal) (exn : Exn) :
  raised (CheckMarkers.check_token has token) = Some exn →
  exn = AssertionError ∧ ¬ Spec.named token.
Proof.
  destruct (named_or_not token) as [Hn|Hn].
  - by rewrite check_token_named.
  - rewrite check_token_unnamed by done. by intros [= <-].
Qed.

(** what the loop over the marker tokens yields is the diagnostic of a token
    that the [Has] object does not allow *)
Lemma check_token_yielded (has : Has) (token : Token PyVal) (e : Error) :
  e ∈ yielded (CheckMarkers.check_token has token) →
  ∃ m, marker token = Some m ∧ Props.allowed_marker has m = false ∧
       e = Spec.marker_diagnostic m token.
Proof.
  unfold CheckMarkers.check_token, Props.allowed_marker.
  destruct (marker token) as [m|]; [|by intros ?%elem_of_nil].
  destruct (String.eqb m ""); [by intros ?%elem_of_nil|].
  destruct (match getattr_has has ("has_" +:+ m) with
            | Some b => b
            | None => bool_decide (m ∈ markers has)
            end) eqn:Hallowed; [by intros ?%elem_of_nil|].
  simpl. intros ->%list_elem_of_singleton. exists m.
  unfold Spec.marker_diagnostic. by rewrite codes_get_marker_code.
Qed.

Lemma tokens_loop_raised (has : Has) (tokens : list (Token PyVal)) :
  ¬ Forall Spec.named tokens →
  raised (gen_for tokens (CheckMarkers.check_token has)) = Some AssertionError.
Proof.
  induction tokens as [|token tokens IH]; [by intros []|].
  intros Hnot. simpl. unfold gen_then.
  destruct (named_or_not token) as [Hn|Hn].
  - rewrite check_token_named by done. simpl. apply IH.
    intros Hall. apply Hnot. by constructor.
  - by rewrite check_token_unnamed.
Qed.

Lemma check_raised (func : Func) (has : Has) :
  raised (CheckMarkers._check func has)
  = raised (gen_for (get_markers (body func)) (CheckMarkers.check_token has)).
Proof.
  unfold CheckMarkers._check.
  by destruct (negb (has_io has) && negb (has_returns (body func))).
Qed.

Lemma check_yielded (func : Func) (has : Has) (e : Error) :
  e ∈ yielded (CheckMarkers._check func has) →
  (e = Spec.no_return_diagnostic func ∧
   has_io has = false ∧ has_returns (body func) = false) ∨
  (∃ token m, token ∈ get_markers (body func) ∧ marker token = Some m ∧
              Props.allowed_marker has m = false ∧
              e = Spec.marker_diagnostic m token).
Proof.
  destruct (check_split func has) as (first & -> & ->).
  intros [Hfirst|Hloop]%elem_of_app.
  - left. destruct (has_io has), (has_returns (body func)); simpl in Hfirst;
      try (by apply elem_of_nil in Hfirst).
    by apply list_elem_of_singleton in Hfirst.
  - right. apply gen_for_yielded_from in Hloop as (token & Htoken & He).
    apply check_token_yielded in He as (m & Hm & Hallowed & ->).
    by exists token, m.
Qed.

(** what the rule does is the check against one of the contracts *)
Lemma call_loop_checks (func : Func) (cs : list Contract) :
  CheckMarkers.call_loop func cs = gen_return ∨
  ∃ contract ms, contract ∈ cs ∧ Spec.declares contract ms ∧
    CheckMarkers.call_loop func cs = CheckMarkers._check func (Has_new ms).
Proof.
  induction cs as [|c cs IH]; [by left|].
  simpl. destruct (CheckMarkers.declared_markers c) as [ms|] eqn:Hc.
  - right. exists c, ms. split; [left|].
    split; [by apply declared_markers_declares|done].
  - destruct IH as [IH|(contract & ms & Hin & Hd & IH)]; [by left|].
    right. exists contract, ms. split; [by right|done].
Qed.

(** X6. An exception leaves the marker rule only as the [AssertionError] of
    [assert token.marker], and only when a marker token of the body does not
    name its marker; and when the function has a HAS or PURE contract and
    some marker token does not name its marker, the rule does raise
    it. *)
Theorem CheckMarkers_raises_on_unnamed_token
    (func : Func) (stubs : option StubsManager) :
  (∀ exn, raised (CheckMarkers.__call__ func stubs) = Some exn →
     exn = AssertionError ∧ ¬ Forall Spec.named (get_markers (body func))) ∧
  (∀ before contract rest ms,
     contracts func = before ++ contract :: rest →
     Forall Spec.no_markers before →
     Spec.declares contract ms →
     ¬ Forall Spec.named (get_markers (body func)) →
     raised (CheckMarkers.__call__ func stubs) = Some AssertionError).
Proof.
  unfold CheckMarkers.__call__. split.
  - intros exn.
    destruct (call_loop_checks func (contracts func))
      as [->|(contract & ms & _ & _ & ->)]; [done|].
    rewrite check_raised.
    intros (token & Htoken & Hraised)%gen_for_raised_from.
    apply check_token_raised in Hraised as [-> Hn]. split; [done|].
    rewrite Forall_forall. intros Hall. by apply Hn, Hall.
  - intros before contract rest ms -> Hbefore Hdecl Hnot.
    rewrite (call_loop_first _ _ _ _ ms) by done.
    rewrite check_raised. by apply tokens_loop_raised.
Qed.

(** X7. The marker rule flags nothing else than what its two checks are
    for: every diagnostic it yields comes from the check against a HAS or
    PURE contract of the function, and is either the diagnostic at the
    function for a body that does not return on every path while [has_io] is
    false, or the diagnostic of a marker token whose marker the [Has] object
    does not allow (its [has_<marker>] property is false or, when there is no
    such property, the marker is not among the declared ones). *)
Theorem CheckMarkers_flags_only_what_is_not_allowed
    (func : Func) (stubs : option StubsManager) (e : Error) :
  e ∈ yielded (CheckMarkers.__call__ func stubs) →
  ∃ contract ms,
    contract ∈ contracts func ∧ Spec.declares contract ms ∧
    ((e = Spec.no_return_diagnostic func ∧
      has_io (Has_new ms) = false ∧ has_returns (body func) = false) ∨
     (∃ token m, token ∈ get_markers (body func) ∧ marker token = Some m ∧
                 Props.allowed_marker (Has_new ms) m = false ∧
                 e = Spec.marker_diagnostic m token)).
Proof.
  unfold CheckMarkers.__call__.
  destruct (call_loop_checks func (contracts func))
    as [->|(contract & ms & Hin & Hdecl & ->)].
  - by intros ?%elem_of_nil.
  - intros He%check_yielded. by exists contract, ms.
Qed.

End MarkerShape.

(** ** The exception rule, continued *)

Section RaisesShape.
Context `{Extractors}.

Lemma uncovered_elem (allowed : list ExcValue)
    (tokens : list (Token ExcValue)) (e : Error) :
  e ∈ Spec.uncovered allowed tokens ↔
  ∃ token, token ∈ tokens ∧ Spec.covered allowed (value token) = false ∧
           e = Spec.raises_diagnostic token.
Proof.
  unfold Spec.uncovered. rewrite list_elem_of_In, in_map_iff. split.
  - intros (token & <- & Hin).
    apply list_elem_of_In, list_elem_of_filter in Hin as [Hc Htoken].
    by exists token.
  - intros (token & Hin & Hc & ->). exists token. split; [done|].
    apply list_elem_of_In, list_elem_of_filter. done.
Qed.

(** a diagnostic of the rule is that of a token which a RAISES, SAFE or PURE
    contract of the function does not cover *)
Lemma raises_flagged (func : Func) (stubs : option StubsManager) (e : Error) :
  e ∈ CheckRaises.__call__ func stubs ↔
  ∃ contract token,
    contract ∈ contracts func ∧ category contract ∈ CheckRaises.cats ∧
    token ∈ get_exceptions (body func) stubs ∧
    Spec.covered (exceptions contract) (value token) = false ∧
    e = Spec.raises_diagnostic token.
Proof.
  unfold CheckRaises.__call__, for_yield.
  rewrite list_elem_of_In, in_flat_map. split.
  - intros (contract & Hin & He). apply list_elem_of_In in Hin, He.
    destruct (bool_decide (category contract ∉ CheckRaises.cats)) eqn:Hcat;
      [by apply elem_of_nil in He|].
    apply bool_decide_eq_false, dec_stable in Hcat.
    rewrite check_one_contract in He.
    apply uncovered_elem in He as (token & ? & ? & ->).
    by exists contract, token.
  - intros (contract & token & Hin & Hcat & Htoken & Hc & ->).
    exists contract. split; [by apply list_elem_of_In|].
    rewrite bool_decide_false by (by intros ?).
    rewrite check_one_contract. apply list_elem_of_In, uncovered_elem.
    by exists token.
Qed.

Lemma nil_no_elem {A} (l : list A) : l = [] ↔ ∀ x, x ∉ l.
Proof.
  split; [intros -> x; apply not_elem_of_nil|].
  destruct l as [|x l]; [done|]. intros Hl. destruct (Hl x). left.
Qed.

(** X8. The exception rule yields nothing for a function exactly when every
    RAISES, SAFE or PURE contract of the function covers, by itself, every
    raised-error token of the body, by identity or through a declared
    superclass. *)
Theorem CheckRaises_clean_iff_each_contract_covers
    (func : Func) (stubs : option StubsManager) :
  CheckRaises.__call__ func stubs = [] ↔
  ∀ contract token,
    contract ∈ contracts func → category contract ∈ CheckRaises.cats →
    token ∈ get_exceptions (body func) stubs →
    Spec.covered (exceptions contract) (value token) = true.
Proof.
  rewrite nil_no_elem. split.
  - intros Hnone contract token Hin Hcat Htoken.
    destruct (Spec.covered (exceptions contract) (value token)) eqn:Hc; [done|].
    destruct (Hnone (Spec.raises_diagnostic token)).
    apply raises_flagged. by exists contract, token.
  - intros Hall e (contract & token & Hin & Hcat & Htoken & Hc & _)%raises_flagged.
    rewrite Hall in Hc; done.
Qed.

Lemma covered_mono (allowed allowed' : list ExcValue) (v : ExcValue) :
  allowed ⊆ allowed' →
  Spec.covered allowed v = true → Spec.covered allowed' v = true.
Proof.
  intros Hsub. unfold Spec.covered.
  intros [Hid|Hsubclass]%orb_true_iff; apply orb_true_iff.
  - left. apply bool_decide_eq_true. apply bool_decide_eq_true in Hid. auto.
  - right. destruct v as [c|s]; [|done].
    apply existsb_exists in Hsubclass as (a & Ha & Hs).
    apply existsb_exists. exists a. split; [|done].
    apply list_elem_of_In, Hsub, list_elem_of_In, Ha.
Qed.

Lemma uncovered_sublist (allowed allowed' : list ExcValue)
    (tokens : list (Token ExcValue)) :
  allowed ⊆ allowed' →
  Spec.uncovered allowed' tokens `sublist_of` Spec.uncovered allowed tokens.
Proof.
  intros Hsub. unfold Spec.uncovered.
  induction tokens as [|token tokens IH]; [constructor|].
  rewrite !filter_cons.
  destruct (Spec.covered allowed (value token)) eqn:Hc.
  - rewrite (covered_mono _ _ _ Hsub Hc).
    rewrite !decide_False by done. exact IH.
  - rewrite (decide_True (P := false = false)) by done.
    destruct (decide (Spec.covered allowed' (value token) = false)).
    + simpl. by constructor.
    + simpl. by constructor.
Qed.

(** X9. Declaring more never flags more: when two functions have the same
    body and their contracts correspond one to one, with the same categories
    and with every declared exception of the first function's contract
    declared by the second function's contract too, the diagnostics of the
    exception rule for the second function are among those for the first, in
    the same order. *)
Theorem CheckRaises_declaring_more_flags_less
    (func func' : Func) (stubs : option StubsManager) :
  body func = body func' →
  Forall2 (fun c c' => category c = category c' ∧
                       exceptions c ⊆ exceptions c')
          (contracts func) (contracts func') →
  CheckRaises.__call__ func' stubs `sublist_of` CheckRaises.__call__ func stubs.
Proof.
  intros Hbody Hcs. unfold CheckRaises.__call__, for_yield.
  induction Hcs as [|c c' cs cs' [Hcat Hsub] _ IH]; [constructor|].
  simpl. apply sublist_app; [|exact IH].
  rewrite <- Hcat.
  destruct (bool_decide (category c ∉ CheckRaises.cats)); [constructor|].
  rewrite !check_one_contract, <- Hbody. by apply uncovered_sublist.
Qed.

(** X10. The exception rule keeps names and classes apart.  A raised error
    kept as an unresolved name is flagged for every RAISES, SAFE or PURE
    contract that does not declare this very name, whatever classes the
    contract declares; a raised class is flagged for every such contract that
    declares names only, also when one of the names is the name of the
    class. *)
Theorem CheckRaises_names_and_classes_apart
    (func : Func) (stubs : option StubsManager)
    (contract : Contract) (token : Token ExcValue) :
  contract ∈ contracts func →
  category contract ∈ CheckRaises.cats →
  token ∈ get_exceptions (body func) stubs →
  (∀ s, value token = ExcName s → ExcName s ∉ exceptions contract →
     mkError 21 "raises contract error" (Some s) (line token) (col token)
     ∈ CheckRaises.__call__ func stubs) ∧
  (∀ c, value token = ExcType c →
     Forall (fun a => ∃ s, a = ExcName s) (exceptions contract) →
     mkError 21 "raises contract error" (Some (cls_name c))
             (line token) (col token)
     ∈ CheckRaises.__call__ func stubs).
Proof.
  intros Hin Hcat Htoken. split.
  - intros s Hv Hnot. apply raises_flagged. exists contract, token.
    repeat split; try done.
    + unfold Spec.covered. rewrite Hv.
      by rewrite bool_decide_false.
    + unfold Spec.raises_diagnostic, Spec.offending_name. by rewrite Hv.
  - intros c Hv Hnames. apply raises_flagged. exists contract, token.
    repeat split; try done.
    + unfold Spec.covered. rewrite Hv.
      rewrite bool_decide_false.
      2:{ intros Hc. rewrite Forall_forall in Hnames.
          by destruct (Hnames _ Hc) as (s & ?). }
      simpl. induction Hnames as [|a allowed (s & ->) _ IH]; [done|].
      simpl. exact IH.
    + unfold Spec.raises_diagnostic, Spec.offending_name. by rewrite Hv.
Qed.

End RaisesShape.

(** ** The example rule, continued *)

Lemma gen_then_raised_incl {A} (g k : Gen A) (e : Exn) :
  raised (g ;;; k) = Some e → raised g = Some e ∨ raised k = Some e.
Proof.
  unfold gen_then. destruct (raised g) as [e'|] eqn:Hg; simpl; [|by right].
  rewrite Hg. by left.
Qed.

Section ExampleShape.
Context `{Extractors}.

(** what the check of one contract yields is the diagnostic of one of the
    three validations *)
Lemma check_other_yielded (example : Example) (lineno col_offset : Z)
    (other : Contract) (e : Error) :
  e ∈ yielded (CheckExamples.check_other example lineno col_offset other) →
  ∃ a k label,
    _validate CheckExamples.self other a k lineno col_offset label
    = Ok (Some e) ∧
    (label = "deal.pre" ∨
     (ex_result example ≠ UNKNOWN ∧
      (label = "deal.post" ∨ label = "deal.ensure"))).
Proof.
  unfold CheckExamples.check_other.
  intros [Hpre|Hrest]%gen_then_yielded_incl.
  - destruct (decide (category other = PRE)); [|by apply elem_of_nil in Hpre].
    apply validated_yielded in Hpre. eexists _, _, _. split; [exact Hpre|by left].
  - destruct (decide (category other = POST)).
    + destruct (ex_result example) as [|result] eqn:Hres;
        [by apply elem_of_nil in Hrest|].
      apply gen_then_yielded_incl in Hrest as [Hpost|Hensure].
      * apply validated_yielded in Hpost. eexists _, _, _.
        split; [exact Hpost|]. right. split; [done|by left].
      * destruct (decide (category other = ENSURE));
          [|by apply elem_of_nil in Hensure].
        apply validated_yielded in Hensure. eexists _, _, _.
        split; [exact Hensure|]. right. split; [done|by right].
    + destruct (decide (category other = ENSURE));
        [|by apply elem_of_nil in Hrest].
      destruct (ex_result example) as [|result] eqn:Hres;
        [by apply elem_of_nil in Hrest|].
      apply validated_yielded in Hrest. eexists _, _, _.
      split; [exact Hrest|]. right. split; [done|by right].
Qed.

Lemma check_other_raised (example : Example) (lineno col_offset : Z)
    (other : Contract) (exn : Exn) :
  raised (CheckExamples.check_other example lineno col_offset other) = Some exn →
  ∃ a k name, run other a k = RaisedOther name ∧ exn = OtherError name.
Proof.
  unfold CheckExamples.check_other.
  intros [Hpre|Hrest]%gen_then_raised_incl.
  - destruct (decide (category other = PRE)); [|done].
    apply validated_raised in Hpre as (name & ? & ?). by eexists _, _, name.
  - destruct (decide (category other = POST)).
    + destruct (ex_result example) as [|result]; [done|].
      apply gen_then_raised_incl in Hrest as [Hpost|Hensure].
      * apply validated_raised in Hpost as (name & ? & ?). by eexists _, _, name.
      * destruct (decide (category other = ENSURE)); [|done].
        apply validated_raised in Hensure as (name & ? & ?).
        by eexists _, _, name.
    + destruct (decide (category other = ENSURE)); [|done].
      destruct (ex_result example) as [|result]; [done|].
      apply validated_raised in Hrest as (name & ? & ?). by eexists _, _, name.
Qed.

(** what the rule yields comes from an EXAMPLE contract with a lambda in
    which [get_example] finds an example, and from a contract of the
    function *)
Lemma examples_yielded (func : Func) (stubs : option StubsManager) (e : Error) :
  e ∈ yielded (CheckExamples.__call__ func stubs) →
  ∃ contract token_body lineno col_offset rest example other,
    contract ∈ contracts func ∧ category contract = EXAMPLE ∧
    args contract = Lambda token_body lineno col_offset :: rest ∧
    get_example token_body (name func) = Some example ∧
    other ∈ contracts func ∧
    e ∈ yielded (CheckExamples.check_other example lineno col_offset other).
Proof.
  unfold CheckExamples.__call__.
  intros (contract & Hin & He)%gen_for_yielded_from.
  destruct (decide (category contract ≠ EXAMPLE)) as [Hc|Hc];
    [by apply elem_of_nil in He|].
  apply dec_stable in Hc. unfold CheckExamples._check in He.
  destruct (args contract) as [|[token_body lineno col_offset|x] rest] eqn:Ha;
    try by apply elem_of_nil in He.
  destruct (get_example token_body (name func)) as [example|] eqn:Hex;
    [|by apply elem_of_nil in He].
  apply gen_for_yielded_from in He as (other & Hother & He).
  by exists contract, token_body, lineno, col_offset, rest, example, other.
Qed.

(** X11. Every diagnostic of the example rule is reported at the lambda of
    an EXAMPLE contract of the function, with the position of that lambda and
    not that of the violated contract, carries the code 13, and has as its
    value one of the labels "deal.pre", "deal.post" and "deal.ensure". *)
Theorem CheckExamples_reports_at_the_example
    (func : Func) (stubs : option StubsManager) (e : Error) :
  e ∈ yielded (CheckExamples.__call__ func stubs) →
  code e = 13 ∧ err_value e ∈ Props.example_labels ∧
  ∃ contract token_body lineno col_offset rest,
    contract ∈ contracts func ∧ category contract = EXAMPLE ∧
    args contract = Lambda token_body lineno col_offset :: rest ∧
    row e = lineno ∧ err_col e = col_offset.
Proof.
  intros (contract & token_body & lineno & col_offset & rest & example & other
          & Hin & Hcat & Hargs & _ & _ & He)%examples_yielded.
  apply check_other_yielded in He as (a & k & label & Hv & Hlabel).
  apply validate_some in Hv as (Hcode & Hrow & Hcol & Hvalue & _).
  split; [done|]. split.
  - rewrite Hvalue. unfold Props.example_labels.
    destruct Hlabel as [-> | [_ [-> | ->]]]; set_solver.
  - by exists contract, token_body, lineno, col_offset, rest.
Qed.

(** X12. When the result of every example that the rule reconstructs for
    the function is UNKNOWN, the rule validates the examples against the PRE
    contracts only: every diagnostic it yields has the value "deal.pre". *)
Theorem CheckExamples_unknown_result_checks_pre_only
    (func : Func) (stubs : option StubsManager) :
  (∀ contract token_body lineno col_offset rest example,
     contract ∈ contracts func → category contract = EXAMPLE →
     args contract = Lambda token_body lineno col_offset :: rest →
     get_example token_body (name func) = Some example →
     ex_result example = UNKNOWN) →
  ∀ e, e ∈ yielded (CheckExamples.__call__ func stubs) →
       err_value e = Some "deal.pre".
Proof.
  intros Hunknown e
    (contract & token_body & lineno & col_offset & rest & example & other
     & Hin & Hcat & Hargs & Hex & _ & He)%examples_yielded.
  apply check_other_yielded in He as (a & k & label & Hv & Hlabel).
  apply validate_some in Hv as (_ & _ & _ & Hvalue & _).
  destruct Hlabel as [->|[Hknown _]]; [done|].
  destruct Hknown. by eapply Hunknown.
Qed.

(** X13. The example rule runs no validator, yields nothing and raises
    nothing for a function none of whose EXAMPLE contracts gives an example:
    each of them has as its first argument something else than a lambda, or a
    lambda in which [get_example] finds no call of the function.  A function
    without EXAMPLE contracts is such a function. *)
Theorem CheckExamples_nothing_without_an_example
    (func : Func) (stubs : option StubsManager) :
  (∀ contract, contract ∈ contracts func → category contract = EXAMPLE →
     ∃ rest,
       (∃ x, args contract = OtherNode x :: rest) ∨
       (∃ token_body lineno col_offset,
          args contract = Lambda token_body lineno col_offset :: rest ∧
          get_example token_body (name func) = None)) →
  CheckExamples.__call__ func stubs = gen_return.
Proof.
  intros Hnone. unfold CheckExamples.__call__.
  apply gen_for_quiet. intros contract Hin.
  destruct (decide (category contract ≠ EXAMPLE)) as [Hc|Hc]; [done|].
  apply dec_stable in Hc. unfold CheckExamples._check.
  destruct (Hnone _ Hin Hc)
    as (rest & [(x & ->)|(token_body & lineno & col_offset & -> & Hex)]);
    [done|].
  by rewrite Hex.
Qed.

(** X14. An exception leaves the example rule in two cases only: as an
    [IndexError], when an EXAMPLE contract of the function has no argument;
    or as the error that the validator of a contract of the function raised
    and that [except NameError] does not catch. *)
Theorem CheckExamples_raises_only
    (func : Func) (stubs : option StubsManager) (exn : Exn) :
  raised (CheckExamples.__call__ func stubs) = Some exn →
  (exn = IndexError ∧
   ∃ contract, contract ∈ contracts func ∧ category contract = EXAMPLE ∧
               args contract = []) ∨
  (∃ other a k name, other ∈ contracts func ∧
                     run other a k = RaisedOther name ∧ exn = OtherError name).
Proof.
  unfold CheckExamples.__call__.
  intros (contract & Hin & Hraised)%gen_for_raised_from.
  destruct (decide (category contract ≠ EXAMPLE)) as [Hc|Hc]; [done|].
  apply dec_stable in Hc. unfold CheckExamples._check in Hraised.
  destruct (args contract) as [|[token_body lineno col_offset|x] rest] eqn:Ha.
  - left. injection Hraised as <-. split; [done|]. by exists contract.
  - destruct (get_example token_body (name func)) as [example|]; [|done].
    apply gen_for_raised_from in Hraised as (other & Hother & Hraised).
    apply check_other_raised in Hraised as (a & k & name & Hrun & ->).
    right. by exists other, a, k, name.
  - done.
Qed.

(** X18. For an ENSURE contract and an example with a known result, the
    validator is called with the positional arguments of the example and with
    keyword arguments in which "result" is bound to the result of the
    example, also when the example has a keyword argument of that name, and
    which are those of the example for every other name. *)
Theorem CheckExamples_ensure_binds_result
    (example : Example) (lineno col_offset : Z) (other : Contract)
    (result : PyVal) :
  category other = ENSURE →
  ex_result example = Known result →
  ∃ kwargs : gmap string PyVal,
    CheckExamples.check_other example lineno col_offset other
    = yield_validated
        (_validate CheckExamples.self other (ex_args example) kwargs
                   lineno col_offset "deal.ensure") ∧
    kwargs !! "result" = Some result ∧
    (∀ key, key ≠ "result" → kwargs !! key = ex_kwargs example !! key).
Proof.
  intros Hcat Hres. exists (<["result" := result]> (ex_kwargs example)).
  split; [|split].
  - unfold CheckExamples.check_other. rewrite Hcat, Hres.
    rewrite decide_False by done. rewrite gen_then_return_l.
    rewrite decide_False by done. by rewrite decide_True.
  - apply lookup_insert_eq.
  - intros key Hkey. by apply lookup_insert_ne.
Qed.

End ExampleShape.

(** ** The precondition call-site rule, continued *)


Lemma elem_of_map {A B} (f : A → B) (l : list A) (y : B) :
  y ∈ map f l ↔ ∃ x, x ∈ l ∧ y = f x.
Proof.
  rewrite list_elem_of_In, in_map_iff. split.
  - intros (x & <- & Hx). exists x. by rewrite list_elem_of_In.
  - intros (x & Hx & ->). exists x. by rewrite <- list_elem_of_In.
Qed.

Section PreShape.
Context `{Extractors}.



End PreShape.

(** ** The aliases, continued *)

Section ChainShape.
Context `{Aliases.DecoratorCall}.

(** X16. [chain] composes: chaining no contract leaves the function as it
    is; chaining two lists of contracts one after the other is chaining their
    concatenation, so a chain passed to [chain] is flattened; and the
    contract given last is applied last, on the outside. *)
Theorem chain_composes
    (cs1 cs2 : list (Aliases.Callable → Aliases.Callable))
    (c : Aliases.Callable → Aliases.Callable) (f : Aliases.Callable) :
  Aliases.chain [] f = f ∧
  Aliases.chain (cs1 ++ cs2) f = Aliases.chain cs2 (Aliases.chain cs1 f) ∧
  Aliases.chain [Aliases.chain cs1; Aliases.chain cs2] f
  = Aliases.chain (cs1 ++ cs2) f ∧
  Aliases.chain (cs1 ++ [c]) f = c (Aliases.chain cs1 f).
Proof.
  unfold Aliases.chain. rewrite !fold_left_app. done.
Qed.

End ChainShape.

(** ** The codes of the rules *)

Section Codes.
Context `{ModuleExtractors} `{HasProperties}.

(** X17. The code of a diagnostic tells which rule produced it: the import
    rule yields code 1 only, the precondition call-site rule 11, the
    postcondition rule 12, the example rule 13, the exception rule 21, the
    assertion rule 31, and the marker rule codes from 40 to 48; the rules are
    registered in this order, under codes that are pairwise different. *)
Theorem diagnostic_code_tells_the_rule
    (tree : Tree) (func : Func) (stubs : option StubsManager) (e : Error) :
  (e ∈ CheckImports.__call__ tree → code e = 1) ∧
  (e ∈ CheckPre.__call__ func stubs → code e = 11) ∧
  (e ∈ yielded (CheckReturns.__call__ func stubs) → code e = 12) ∧
  (e ∈ yielded (CheckExamples.__call__ func stubs) → code e = 13) ∧
  (e ∈ CheckRaises.__call__ func stubs → code e = 21) ∧
  (e ∈ CheckAsserts.__call__ func stubs → code e = 31) ∧
  (e ∈ yielded (CheckMarkers.__call__ func stubs) → 40 ≤ code e ≤ 48) ∧
  map rule_code rules = [1; 11; 12; 13; 21; 31; 40] ∧
  NoDup (map rule_code rules).
Proof.
  split_and!.
  - rewrite check_imports_filter. by intros (token & _ & ->)%elem_of_map.
  - unfold CheckPre.__call__. destruct (contracts func) as [|first rest];
      [by intros ?%elem_of_nil|].
    rewrite for_yield_singleton. by intros (token & _ & ->)%elem_of_map.
  - unfold CheckReturns.__call__.
    intros (contract & _ & He)%gen_for_yielded_from.
    destruct (decide (category contract ≠ POST)); [by apply elem_of_nil in He|].
    apply gen_for_yielded_from in He as (token & _ & He).
    by apply validated_yielded, validate_some in He as (-> & _).
  - intros (contract & token_body & lineno & col_offset & rest & example & other
            & _ & _ & _ & _ & _ & He)%examples_yielded.
    apply check_other_yielded in He as (a & k & label & Hv & _).
    by apply validate_some in Hv as (-> & _).
  - by intros (contract & token & _ & _ & _ & _ & ->)%raises_flagged.
  - unfold CheckAsserts.__call__. destruct (String.prefix "test_" (name func));
      [by intros ?%elem_of_nil|].
    rewrite for_yield_singleton. by intros (token & _ & ->)%elem_of_map.
  - unfold CheckMarkers.__call__. intros He.
    destruct (call_loop_checks func (contracts func))
      as [Hq|(contract & ms & _ & _ & Hq)]; rewrite Hq in He;
      [by apply elem_of_nil in He|].
    apply check_yielded in He as [(-> & _)|(token & m & _ & _ & _ & ->)];
      [done|apply marker_code_range].
  - reflexivity.
  - apply (bool_decide_unpack (NoDup (map rule_code rules))). by vm_compute.
Qed.

End Codes.

(** ** The further properties at concrete functions *)

Lemma validate_keeps_error_info_witness :
  code (mkError 13 "must be positive" (Some "deal.pre") 3 0) = 13 ∧
  (_validate CheckExamples.self
             (Builtins.contract_of PRE [] (RaisedOther "TypeError"))
             [VInt 1] ∅ 3 0 "deal.pre"
   = Raise (OtherError "TypeError")).
Proof.
  split.
  - apply (proj1 (validate_keeps_error_info CheckExamples.self
                    (Builtins.contract_of PRE []
                       (Returned (VStr "must be positive")))
                    [VInt 1] ∅ 3 0 "deal.pre")
                 (mkError 13 "must be positive" (Some "deal.pre") 3 0)).
    reflexivity.
  - apply (proj2 (validate_keeps_error_info CheckExamples.self
                    (Builtins.contract_of PRE [] (RaisedOther "TypeError"))
                    [VInt 1] ∅ 3 0 "deal.pre")
                 (OtherError "TypeError")).
    exists "TypeError". split; reflexivity.
Defined.

Section FullWitnesses.
Import FullFacts.

Lemma CheckImports_flags_deal_imports_witness :
  CheckImports.__call__ module_importing
  = map Props.import_diagnostic
        (filter Props.imports_deal (get_imports (tree_body module_importing)))
  ∧ CheckImports.__call__ module_plain = [].
Proof.
  split.
  - exact (proj1 (CheckImports_flags_deal_imports module_importing)).
  - apply (proj2 (CheckImports_flags_deal_imports module_plain)).
    constructor; [discriminate|constructor].
Defined.

Lemma CheckReturns_validates_every_return_witness :
  CheckReturns.__call__ (returning [positive_post; raises_nothing]) None
  = mkGen [mkError 12 "post contract error" (Some "-1") 3 4] None.
Proof.
  rewrite (CheckReturns_validates_every_return
             (returning [positive_post; raises_nothing]) None).
  - reflexivity.
  - intros contract token e Hc Hpost Htoken. simpl in Hc, Htoken.
    apply elem_of_cons in Hc as [->|Hc].
    + apply elem_of_cons in Htoken as [->|Htoken]; [done|].
      apply list_elem_of_singleton in Htoken as ->. done.
    + apply list_elem_of_singleton in Hc as ->. done.
Defined.

Lemma CheckReturns_nothing_to_validate_witness :
  CheckReturns.__call__ (returning [raises_nothing]) None = gen_return ∧
  CheckReturns.__call__ (not_returning [broken_post]) None = gen_return.
Proof.
  split.
  - apply (proj1 (CheckReturns_nothing_to_validate
                    (returning [raises_nothing]) None)).
    constructor; [discriminate|constructor].
  - apply (proj2 (CheckReturns_nothing_to_validate
                    (not_returning [broken_post]) None)).
    reflexivity.
Defined.

Lemma CheckReturns_raises_validator_errors_witness :
  ∃ contract token name,
    contract ∈ contracts (returning [positive_post; broken_post]) ∧
    category contract = POST ∧
    token ∈ get_returns (body (returning [positive_post; broken_post])) ∧
    run contract [value token] ∅ = RaisedOther name ∧
    OtherError "TypeError" = OtherError name.
Proof.
  apply (CheckReturns_raises_validator_errors
           (returning [positive_post; broken_post]) None
           (OtherError "TypeError")).
  reflexivity.
Defined.

Lemma diagnostic_code_tells_the_rule_witness :
  code (mkError 1 "do not use `from deal import ...`, use `import deal` instead"
                None 1 0) = 1 ∧
  code (mkError 12 "post contract error" (Some "-1") 3 4) = 12.
Proof.
  split.
  - apply (proj1 (diagnostic_code_tells_the_rule
                    (H3 := Builtins.declared_set_has)
                    module_importing (returning [positive_post]) None
                    (mkError 1 "do not use `from deal import ...`, use `import deal` instead"
                             None 1 0))).
    vm_compute. left.
  - apply (proj1 (proj2 (proj2 (diagnostic_code_tells_the_rule
                    (H3 := Builtins.declared_set_has)
                    module_importing (returning [positive_post]) None
                    (mkError 12 "post contract error" (Some "-1") 3 4))))).
    vm_compute. left.
Defined.

End FullWitnesses.

Lemma CheckMarkers_raises_on_unnamed_token_witness :
  (AssertionError = AssertionError ∧
   ¬ Forall Spec.named (get_markers (body MoreInputs.unnamed_printing))) ∧
  raised (CheckMarkers.__call__ MoreInputs.unnamed_printing None)
  = Some AssertionError.
Proof.
  assert (¬ Forall Spec.named (get_markers (body MoreInputs.unnamed_printing)))
    as Hunnamed.
  { intros Hall. inversion Hall as [|? ? (m & Hm & _)]. discriminate Hm. }
  split.
  - apply (proj1 (CheckMarkers_raises_on_unnamed_token
                    MoreInputs.unnamed_printing None) AssertionError).
    reflexivity.
  - apply (proj2 (CheckMarkers_raises_on_unnamed_token
                    MoreInputs.unnamed_printing None)
                 [] Inputs.pure_contract [] []).
    + reflexivity.
    + constructor.
    + right. split; reflexivity.
    + exact Hunnamed.
Defined.

Lemma CheckMarkers_flags_only_what_is_not_allowed_witness :
  ∃ contract ms,
    contract ∈ contracts Inputs.pure_printing ∧ Spec.declares contract ms ∧
    ((Spec.marker_diagnostic "stdout" Inputs.print_token
      = Spec.no_return_diagnostic Inputs.pure_printing ∧
      has_io (Has_new ms) = false ∧
      has_returns (body Inputs.pure_printing) = false) ∨
     (∃ token m,
        token ∈ get_markers (body Inputs.pure_printing) ∧
        marker token = Some m ∧
        Props.allowed_marker (Has_new ms) m = false ∧
        Spec.marker_diagnostic "stdout" Inputs.print_token
        = Spec.marker_diagnostic m token)).
Proof.
  apply (CheckMarkers_flags_only_what_is_not_allowed
           Inputs.pure_printing None
           (Spec.marker_diagnostic "stdout" Inputs.print_token)).
  change (Spec.marker_diagnostic "stdout" Inputs.print_token
          ∈ [Spec.no_return_diagnostic Inputs.pure_printing;
             Spec.marker_diagnostic "stdout" Inputs.print_token]).
  right. left.
Defined.

Lemma CheckRaises_clean_iff_each_contract_covers_witness :
  CheckRaises.__call__ MoreInputs.lookup_declared None = [].
Proof.
  apply (proj2 (CheckRaises_clean_iff_each_contract_covers
                  MoreInputs.lookup_declared None)).
  intros contract token Hc _ Htoken. simpl in Hc, Htoken.
  apply list_elem_of_singleton in Hc as ->.
  apply list_elem_of_singleton in Htoken as ->.
  reflexivity.
Defined.

Lemma CheckRaises_declaring_more_flags_less_witness :
  CheckRaises.__call__ MoreInputs.two_raises_wider None
  `sublist_of` CheckRaises.__call__ Inputs.two_raises None.
Proof.
  apply (CheckRaises_declaring_more_flags_less
           Inputs.two_raises MoreInputs.two_raises_wider None).
  - reflexivity.
  - constructor; [|constructor; [|constructor]].
    + split; [reflexivity|]. intros x ->%list_elem_of_singleton. left.
    + split; [reflexivity|]. intros x ->%list_elem_of_singleton. left.
Defined.

Lemma CheckRaises_names_and_classes_apart_witness :
  mkError 21 "raises contract error" (Some "UnknownError") 2 4
  ∈ CheckRaises.__call__ MoreInputs.unknown_under_exception None
  ∧ mkError 21 "raises contract error" (Some "ValueError") 4 4
    ∈ CheckRaises.__call__ MoreInputs.value_error_by_name None.
Proof.
  split.
  - apply (proj1 (CheckRaises_names_and_classes_apart
                    MoreInputs.unknown_under_exception None
                    MoreInputs.exception_declared MoreInputs.raise_unknown
                    ltac:(left) ltac:(left) ltac:(left))
                 "UnknownError").
    + reflexivity.
    + intros Hin. apply list_elem_of_singleton in Hin. discriminate Hin.
  - apply (proj2 (CheckRaises_names_and_classes_apart
                    MoreInputs.value_error_by_name None
                    MoreInputs.name_declared Inputs.raise_ValueError
                    ltac:(left) ltac:(left) ltac:(left))
                 Builtins.ValueError).
    + reflexivity.
    + constructor; [by exists "ValueError"|constructor].
Defined.

Lemma CheckExamples_reports_at_the_example_witness :
  code (mkError 13 "x must be odd" (Some "deal.pre") 2 1) = 13 ∧
  err_value (mkError 13 "x must be odd" (Some "deal.pre") 2 1)
  ∈ Props.example_labels ∧
  ∃ contract token_body lineno col_offset rest,
    contract ∈ contracts Inputs.exampled ∧ category contract = EXAMPLE ∧
    args contract = Lambda token_body lineno col_offset :: rest ∧
    row (mkError 13 "x must be odd" (Some "deal.pre") 2 1) = lineno ∧
    err_col (mkError 13 "x must be odd" (Some "deal.pre") 2 1) = col_offset.
Proof.
  apply (CheckExamples_reports_at_the_example Inputs.exampled None).
  change (mkError 13 "x must be odd" (Some "deal.pre") 2 1
          ∈ [mkError 13 "x must be odd" (Some "deal.pre") 2 1;
             mkError 13 "example violates contract" (Some "deal.ensure") 2 1]).
  left.
Defined.

Lemma CheckExamples_unknown_result_checks_pre_only_witness :
  yielded (CheckExamples.__call__ MoreInputs.unknown_exampled None)
  = [mkError 13 "x must be odd" (Some "deal.pre") 2 1] ∧
  err_value (mkError 13 "x must be odd" (Some "deal.pre") 2 1)
  = Some "deal.pre".
Proof.
  split; [reflexivity|].
  apply (CheckExamples_unknown_result_checks_pre_only
           MoreInputs.unknown_exampled None).
  - intros contract token_body lineno col_offset rest example Hc Hcat Hargs Hex.
    simpl in Hc.
    repeat (apply elem_of_cons in Hc as [->|Hc]); try discriminate Hcat.
    + injection Hargs as <- _ _ _. by injection Hex as <-.
    + by apply elem_of_nil in Hc.
  - change (mkError 13 "x must be odd" (Some "deal.pre") 2 1
            ∈ [mkError 13 "x must be odd" (Some "deal.pre") 2 1]).
    left.
Defined.

Lemma CheckExamples_nothing_without_an_example_witness :
  CheckExamples.__call__ MoreInputs.without_usable_example None = gen_return.
Proof.
  apply (CheckExamples_nothing_without_an_example
           MoreInputs.without_usable_example None).
  intros contract Hc Hcat.
  change (contract ∈ [Inputs.odd_pre; MoreInputs.not_lambda_example;
                      MoreInputs.no_call_example]) in Hc.
  repeat (apply elem_of_cons in Hc as [->|Hc]); try discriminate Hcat.
  - exists []. left. by eexists.
  - exists []. right. by eexists _, 2, 1.
  - by apply elem_of_nil in Hc.
Defined.

Lemma CheckExamples_raises_only_witness :
  (IndexError = IndexError ∧
   ∃ contract, contract ∈ contracts MoreInputs.example_without_argument ∧
               category contract = EXAMPLE ∧ args contract = []) ∨
  (∃ other a k name,
     other ∈ contracts MoreInputs.example_without_argument ∧
     run other a k = RaisedOther name ∧ IndexError = OtherError name).
Proof.
  apply (CheckExamples_raises_only
           MoreInputs.example_without_argument None IndexError).
  reflexivity.
Defined.


Lemma CheckExamples_ensure_binds_result_witness :
  ∃ kwargs : gmap string PyVal,
    CheckExamples.check_other MoreInputs.example_keyword 2 1
                              Inputs.not_four_ensure
    = yield_validated
        (_validate CheckExamples.self Inputs.not_four_ensure
                   (ex_args MoreInputs.example_keyword) kwargs
                   2 1 "deal.ensure") ∧
    kwargs !! "result" = Some (VInt 4) ∧
    (∀ key, key ≠ "result" →
            kwargs !! key = ex_kwargs MoreInputs.example_keyword !! key).
Proof.
  apply (CheckExamples_ensure_binds_result
           MoreInputs.example_keyword 2 1 Inputs.not_four_ensure (VInt 4));
    reflexivity.
Defined.
